(** * QR authentication plugin: the server's token exchange

    A shallow embedding of [src/plugin/server.ts]: the [qrToken] table behind
    the database adapter, the four endpoint handlers ([generateToken],
    [verifyToken], [pollStatus], [claimSession]) written as programs whose
    constructors are the handler's [await] points, a run-to-completion
    interpreter for one request at a time, and an interleaving interpreter
    for requests that overlap at their [await] points. *)

From Stdlib Require Import ZArith String List Bool Lia.
Import ListNotations.
Local Open Scope string_scope.
Local Open Scope list_scope.
Local Open Scope Z_scope.

(** ** Values *)

(** An optional column of a row read back from the adapter: never written
    ([undefined]), written as [null], or holding a value. *)
Inductive optional (A : Type) : Type :=
| Undefined
| Null
| Value (a : A).
Arguments Undefined {A}.
Arguments Null {A}.
Arguments Value {A} a.

Definition is_set {A} (v : optional A) : bool :=
  match v with Value _ => true | _ => false end.

(** JavaScript truthiness of a string that may be missing: [!s] is true for
    [undefined], [null] and the empty string. *)
Definition truthy (v : optional string) : bool :=
  match v with
  | Value s => negb (String.eqb s EmptyString)
  | _ => false
  end.

(** The string a truthy value holds. *)
Definition text (v : optional string) : string :=
  match v with
  | Value s => s
  | _ => EmptyString
  end.

(** Time values are milliseconds since the epoch. [new Date(v)] of a column:
    [new Date(null)] is the epoch, [new Date(undefined)] is an invalid date
    ([None]), whose comparisons are all false. *)
Definition new_Date (v : optional Z) : option Z :=
  match v with
  | Value t => Some t
  | Null => Some 0
  | Undefined => None
  end.

Definition date_gt (a : option Z) (now : Z) : bool :=
  match a with Some t => now <? t | None => false end.

Definition date_le (a : option Z) (now : Z) : bool :=
  match a with Some t => t <=? now | None => false end.

(** ** Data model *)

Record QRToken : Type := {
  id : string;
  token : string;
  createdAt : Z;
  expiresAt : Z;
  isUsed : bool;
  userId : optional string;
  verifiedAt : optional Z;
  sessionCreationToken : optional string;
  sessionCreationTokenExpiresAt : optional Z
}.

Record User : Type := {
  user_id : string;
  user_email : string
}.

(** [ctx.context.session] as [sessionMiddleware] leaves it. *)
Record SessionContext : Type := {
  session_user : option User
}.

(** What [internalAdapter.createSession] hands back. *)
Record Session : Type := {
  session_token : string;
  session_expiresAt : Z
}.

Record QRCodeData : Type := {
  qr_tokenId : string;
  qr_token : string;
  qr_serverUrl : string
}.

(** The request bodies of [POST /qr/verify] and [POST /qr/claim-session]. *)
Record VerifyBody : Type := {
  body_tokenId : optional string;
  body_token : optional string
}.

Record ClaimBody : Type := {
  body_sessionCreationToken : optional string
}.

(** The parsed configuration; minutes and pixels are whole numbers here. *)
Record QRAuthConfig : Type := {
  tokenExpirationMinutes : Z;
  qrCodeSize : Z
}.

Definition default_config : QRAuthConfig :=
  {| tokenExpirationMinutes := 5; qrCodeSize := 256 |}.

(** ** The adapter *)

(** The two tables the handlers reach through the adapter. Sessions are kept
    by the host's session system and are not a table here. *)
Record Database : Type := {
  qrToken_table : list QRToken;
  user_table : list User
}.

(** The handlers only ever build [where] clauses with one [eq] condition, on
    [id] or on [sessionCreationToken]. *)
Inductive Field : Type := field_id | field_sessionCreationToken.

Record Where : Type := {
  field : Field;
  value : string
}.

Definition matches (w : Where) (r : QRToken) : bool :=
  match field w with
  | field_id => String.eqb (id r) (value w)
  | field_sessionCreationToken =>
      match sessionCreationToken r with
      | Value t => String.eqb t (value w)
      | _ => false
      end
  end.

(** The table is a list of rows in insertion order. [findOne] is the first
    row the clause selects; [update] rewrites and [delete] removes every row
    the clause selects, as an SQL [UPDATE ... WHERE] and [DELETE ... WHERE]
    do; [create] appends a row. *)
Definition findOne (w : Where) (rows : list QRToken) : option QRToken :=
  find (matches w) rows.

Definition update (w : Where) (set : QRToken -> QRToken) (rows : list QRToken)
  : list QRToken :=
  map (fun r => if matches w r then set r else r) rows.

Definition delete (w : Where) (rows : list QRToken) : list QRToken :=
  filter (fun r => negb (matches w r)) rows.

Definition create (data : QRToken) (rows : list QRToken) : list QRToken :=
  rows ++ [data].

Definition findUser (uid : optional string) (users : list User) : option User :=
  match uid with
  | Value u => find (fun usr => String.eqb (user_id usr) u) users
  | _ => None
  end.

(** The two [update] payloads of the server. *)
Definition verify_update (uid : string) (stamp : Z) (sct : string) (sctExpiresAt : Z)
  (r : QRToken) : QRToken :=
  {| id := id r;
     token := token r;
     createdAt := createdAt r;
     expiresAt := expiresAt r;
     isUsed := true;
     userId := Value uid;
     verifiedAt := Value stamp;
     sessionCreationToken := Value sct;
     sessionCreationTokenExpiresAt := Value sctExpiresAt |}.

Definition claim_update (r : QRToken) : QRToken :=
  {| id := id r;
     token := token r;
     createdAt := createdAt r;
     expiresAt := expiresAt r;
     isUsed := isUsed r;
     userId := userId r;
     verifiedAt := verifiedAt r;
     sessionCreationToken := Null;
     sessionCreationTokenExpiresAt := Null |}.

(** ** The host's session system *)

Inductive CreateOutcome : Type :=
| Created (s : Session)
| ReturnedNull
| Threw (message : option string).

(** [createSession] by user id, and [setSessionCookie], which answers with
    what it threw ([Some]) or with [None] when it returned normally. *)
Record SessionSystem : Type := {
  createSession : string -> CreateOutcome;
  setSessionCookie : Session -> User -> option (option string)
}.

(** ** Handlers as programs over their [await] points *)

Inductive Async (R : Type) : Type :=
| Return (r : R)
| await_create (data : QRToken) (k : Async R)
| await_findOne (w : Where) (k : option QRToken -> Async R)
| await_findUser (uid : optional string) (k : option User -> Async R)
| await_update (w : Where) (set : QRToken -> QRToken) (k : Async R)
| await_delete (w : Where) (k : Async R)
| await_createSession (uid : string) (k : CreateOutcome -> Async R)
| await_setSessionCookie (s : Session) (u : User) (k : option (option string) -> Async R).
Arguments Return {R} r.
Arguments await_create {R} data k.
Arguments await_findOne {R} w k.
Arguments await_findUser {R} uid k.
Arguments await_update {R} w set k.
Arguments await_delete {R} w k.
Arguments await_createSession {R} uid k.
Arguments await_setSessionCookie {R} s u k.

Definition with_rows (db : Database) (rows : list QRToken) : Database :=
  {| qrToken_table := rows; user_table := user_table db |}.

(** One [await]: the pending adapter call takes effect and the handler
    resumes up to its next [await]. *)
Definition resume {R} (sys : SessionSystem) (p : Async R) (db : Database)
  : Async R * Database :=
  match p with
  | Return r => (Return r, db)
  | await_create data k => (k, with_rows db (create data (qrToken_table db)))
  | await_findOne w k => (k (findOne w (qrToken_table db)), db)
  | await_findUser uid k => (k (findUser uid (user_table db)), db)
  | await_update w set k => (k, with_rows db (update w set (qrToken_table db)))
  | await_delete w k => (k, with_rows db (delete w (qrToken_table db)))
  | await_createSession uid k => (k (createSession sys uid), db)
  | await_setSessionCookie s u k => (k (setSessionCookie sys s u), db)
  end.

(** A request served with no other request in between. *)
Fixpoint run {R} (sys : SessionSystem) (p : Async R) (db : Database)
  : R * Database :=
  match p with
  | Return r => (r, db)
  | await_create data k => run sys k (with_rows db (create data (qrToken_table db)))
  | await_findOne w k => run sys (k (findOne w (qrToken_table db))) db
  | await_findUser uid k => run sys (k (findUser uid (user_table db))) db
  | await_update w set k => run sys k (with_rows db (update w set (qrToken_table db)))
  | await_delete w k => run sys k (with_rows db (delete w (qrToken_table db)))
  | await_createSession uid k => run sys (k (createSession sys uid)) db
  | await_setSessionCookie s u k => run sys (k (setSessionCookie sys s u)) db
  end.

(** ** Responses *)

Inductive Status : Type := pending | completed.

Inductive Response : Type :=
| json_error (error : string) (status : Z)
| generate_ok (tokenId : string) (qrCode : QRCodeData) (expires : Z)
| verify_ok (uid : string) (user : User) (sct : string) (sctExpiresAt : Z)
| status_ok (status : Status) (uid : optional string) (user : option User)
    (sct : option string) (verified : option Z) (expires : Z)
| claim_ok (uid : string) (user : User) (sessionToken : string) (expires : Z).

Definition by_id (tokenId : string) : Where :=
  {| field := field_id; value := tokenId |}.

Definition by_sessionCreationToken (sct : string) : Where :=
  {| field := field_sessionCreationToken; value := sct |}.

Definition iso_or_null (v : optional Z) : option Z :=
  match v with Value t => Some t | _ => None end.

Definition failure_message (thrown : option string) : string :=
  ("Failed to create session: " ++
   match thrown with Some m => m | None => "Unknown error" end)%string.

(** ** The endpoints *)

Section Endpoints.

Variable parsedConfig : QRAuthConfig.

(** [POST /qr/generate]. [tokenId] and [token] are the two [uuidv4()] draws,
    [now] the clock reading. *)
Definition generateToken (tokenId token : string) (now : Z) (baseURL : string)
  : Async Response :=
  let expires := now + tokenExpirationMinutes parsedConfig * 60 * 1000 in
  await_create
    {| id := tokenId;
       token := token;
       createdAt := now;
       expiresAt := expires;
       isUsed := false;
       userId := Undefined;
       verifiedAt := Undefined;
       sessionCreationToken := Undefined;
       sessionCreationTokenExpiresAt := Undefined |}
    (Return (generate_ok tokenId
               {| qr_tokenId := tokenId; qr_token := token; qr_serverUrl := baseURL |}
               expires)).

(** [POST /qr/verify]. [fresh] is the [uuidv4()] draw; [now_check] is the
    clock read by the expiry test, [now_mint] by [Date.now()] and [now_stamp]
    by the [new Date()] of [verifiedAt]. *)
Definition verifyToken (body : VerifyBody)
  (session : option SessionContext) (fresh : string)
  (now_check now_mint now_stamp : Z) : Async Response :=
  let tokenId := body_tokenId body in
  if negb (truthy tokenId) || negb (truthy (body_token body)) then
    Return (json_error "Token ID and token are required" 400)
  else
    match session with
    | Some {| session_user := Some usr |} =>
        await_findOne (by_id (text tokenId)) (fun found =>
          match found with
          | None => Return (json_error "Token not found" 404)
          | Some qrToken =>
              if negb (String.eqb (token qrToken) (text (body_token body))) then
                Return (json_error "Invalid token" 401)
              else if expiresAt qrToken <? now_check then
                await_delete (by_id (text tokenId))
                  (Return (json_error "Token expired" 410))
              else if isUsed qrToken then
                Return (json_error "Token already used" 409)
              else
                let sct := fresh in
                let sctExpiresAt := now_mint + 5 * 60 * 1000 in
                await_update (by_id (text tokenId))
                  (verify_update (user_id usr) now_stamp sct sctExpiresAt)
                  (Return (verify_ok (user_id usr) usr sct sctExpiresAt))
          end)
    | _ => Return (json_error "No authenticated user" 401)
    end.

(** [GET /qr/status]. [now_first] is the clock read by the test of
    [expiresAt], [now_second] by the test of
    [sessionCreationTokenExpiresAt]. *)
Definition pollStatus (tokenId : optional string) (now_first now_second : Z)
  : Async Response :=
  if negb (truthy tokenId) then
    Return (json_error "Token ID required" 400)
  else
    await_findOne (by_id (text tokenId)) (fun found =>
      match found with
      | None => Return (json_error "Token not found" 404)
      | Some qrToken =>
          let fallthrough :=
            Return (status_ok (if isUsed qrToken then completed else pending)
                      (userId qrToken) None None
                      (iso_or_null (verifiedAt qrToken)) (expiresAt qrToken)) in
          if expiresAt qrToken <? now_first then
            await_delete (by_id (text tokenId))
              (Return (json_error "Token expired" 410))
          else if isUsed qrToken then
            await_findUser (userId qrToken) (fun user =>
              match user with
              | Some usr =>
                  if truthy (sessionCreationToken qrToken) then
                    if date_gt (new_Date (sessionCreationTokenExpiresAt qrToken))
                         now_second
                    then
                      Return (status_ok completed (userId qrToken) (Some usr)
                                (Some (text (sessionCreationToken qrToken)))
                                (iso_or_null (verifiedAt qrToken))
                                (expiresAt qrToken))
                    else fallthrough
                  else fallthrough
              | None => fallthrough
              end)
          else fallthrough
      end).

(** [POST /qr/claim-session]. *)
Definition claimSession (body : ClaimBody) (now : Z) : Async Response :=
  if negb (truthy (body_sessionCreationToken body)) then
    Return (json_error "Session creation token is required" 400)
  else
    let clause := by_sessionCreationToken (text (body_sessionCreationToken body)) in
    await_findOne clause (fun found =>
      match found with
      | None => Return (json_error "Invalid session creation token" 404)
      | Some qrToken =>
          if negb (isUsed qrToken) || negb (truthy (userId qrToken)) then
            Return (json_error "QR token not properly verified" 400)
          else if date_le (new_Date (sessionCreationTokenExpiresAt qrToken)) now then
            Return (json_error "Session creation token expired" 410)
          else
            await_findUser (userId qrToken) (fun user =>
              match user with
              | None => Return (json_error "User not found" 404)
              | Some usr =>
                  await_createSession (text (userId qrToken)) (fun outcome =>
                    match outcome with
                    | Threw m => Return (json_error (failure_message m) 500)
                    | ReturnedNull =>
                        Return (json_error "Failed to create session" 500)
                    | Created sessionToken =>
                        await_setSessionCookie sessionToken usr (fun thrown =>
                          match thrown with
                          | Some m => Return (json_error (failure_message m) 500)
                          | None =>
                              await_update clause claim_update
                                (Return (claim_ok (text (userId qrToken)) usr
                                           (session_token sessionToken)
                                           (session_expiresAt sessionToken)))
                          end)
                    end)
              end)
      end).

End Endpoints.

(** ** Requests, one at a time or overlapping *)

Inductive Request : Type :=
| POST_generate (tokenId token : string) (now : Z) (baseURL : string)
| POST_verify (body : VerifyBody) (session : option SessionContext)
    (fresh : string) (now_check now_mint now_stamp : Z)
| GET_status (tokenId : optional string) (now_first now_second : Z)
| POST_claim (body : ClaimBody) (now : Z).

Definition endpoint (parsedConfig : QRAuthConfig) (req : Request) : Async Response :=
  match req with
  | POST_generate tokenId token now baseURL =>
      generateToken parsedConfig tokenId token now baseURL
  | POST_verify body session fresh now_check now_mint now_stamp =>
      verifyToken body session fresh now_check now_mint now_stamp
  | GET_status tokenId now_first now_second =>
      pollStatus tokenId now_first now_second
  | POST_claim body now => claimSession body now
  end.

(** Requests served back to back, each against the session system as it
    behaves when the request arrives. *)
Fixpoint serve (parsedConfig : QRAuthConfig)
  (arrivals : list (SessionSystem * Request)) (db : Database)
  : list Response * Database :=
  match arrivals with
  | [] => ([], db)
  | (sys, req) :: later =>
      let (resp, db1) := run sys (endpoint parsedConfig req) db in
      let (resps, db2) := serve parsedConfig later db1 in
      (resp :: resps, db2)
  end.

Fixpoint set_nth {A} (n : nat) (x : A) (l : list A) : list A :=
  match l, n with
  | [], _ => []
  | _ :: tl, O => x :: tl
  | hd :: tl, S m => hd :: set_nth m x tl
  end.

(** Handlers in flight together: the event loop resumes one of them at each
    turn, in the order the schedule names them. *)
Fixpoint interleave {R} (sys : SessionSystem) (schedule : list nat)
  (handlers : list (Async R)) (db : Database) : list (Async R) * Database :=
  match schedule with
  | [] => (handlers, db)
  | i :: turns =>
      match nth_error handlers i with
      | Some p =>
          let (p1, db1) := resume sys p db in
          interleave sys turns (set_nth i p1 handlers) db1
      | None => interleave sys turns handlers db
      end
  end.

(** ** Predicates on rows and responses *)

(** The record invariant: a row that is not used carries no user, no
    verification time and no session-creation token; a used row carries a
    user and a verification time. *)
Definition record_ok (r : QRToken) : bool :=
  if isUsed r then is_set (userId r) && is_set (verifiedAt r)
  else negb (is_set (userId r)) && negb (is_set (verifiedAt r))
       && negb (is_set (sessionCreationToken r)).

Definition table_ok (rows : list QRToken) : bool := forallb record_ok rows.

Definition is_claim_ok (resp : Response) : bool :=
  match resp with claim_ok _ _ _ _ => true | _ => false end.

Definition is_verify_ok (resp : Response) : bool :=
  match resp with verify_ok _ _ _ _ => true | _ => false end.

(** The session-creation token a status response discloses. *)
Definition disclosed (resp : Response) : option string :=
  match resp with
  | status_ok _ _ _ sct _ _ => sct
  | _ => None
  end.

(** A later [POST /qr/verify] that draws the token [t] again. *)
Definition mints (t : string) (req : Request) : bool :=
  match req with
  | POST_verify _ _ fresh _ _ _ => String.eqb fresh t
  | _ => false
  end.

Definition never_mints (t : string) (arrivals : list (SessionSystem * Request)) : bool :=
  forallb (fun a => negb (mints t (snd a))) arrivals.

(** A correct scan of the token [(tid, tok)] by an authenticated caller,
    arriving no later than [deadline]. *)
Definition correct_scan (tid tok : string) (deadline : Z) (req : Request) : bool :=
  match req with
  | POST_verify body (Some {| session_user := Some _ |}) _ now_check _ _ =>
      match body_tokenId body, body_token body with
      | Value i, Value s => String.eqb i tid && String.eqb s tok && (now_check <=? deadline)
      | _, _ => false
      end
  | _ => false
  end.

(** No row of the table holds the session-creation token [t]. *)
Definition no_row_holds (t : string) (rows : list QRToken) : bool :=
  forallb (fun r => negb (matches (by_sessionCreationToken t) r)) rows.

(** What one request can do to the [qrToken] table: nothing, delete the rows
    a clause selects, append the row [generateToken] builds, apply the
    payload of [verifyToken] to the rows with the scanned id, or apply the
    payload of [claimSession] to the rows holding the claimed token. *)
Inductive table_effect (rows : list QRToken)
  : Request -> Response -> list QRToken -> Prop :=
| effect_none req resp :
    is_claim_ok resp = false -> is_verify_ok resp = false ->
    table_effect rows req resp rows
| effect_evict req resp w :
    is_claim_ok resp = false -> is_verify_ok resp = false ->
    table_effect rows req resp (delete w rows)
| effect_generate tokenId token now baseURL resp expires :
    is_claim_ok resp = false -> is_verify_ok resp = false ->
    table_effect rows (POST_generate tokenId token now baseURL) resp
      (create {| id := tokenId;
                 token := token;
                 createdAt := now;
                 expiresAt := expires;
                 isUsed := false;
                 userId := Undefined;
                 verifiedAt := Undefined;
                 sessionCreationToken := Undefined;
                 sessionCreationTokenExpiresAt := Undefined |} rows)
| effect_verify body session fresh now_check now_mint now_stamp resp uid q :
    is_claim_ok resp = false ->
    findOne (by_id (text (body_tokenId body))) rows = Some q ->
    isUsed q = false ->
    table_effect rows
      (POST_verify body session fresh now_check now_mint now_stamp) resp
      (update (by_id (text (body_tokenId body)))
         (verify_update uid now_stamp fresh (now_mint + 5 * 60 * 1000)) rows)
| effect_claim body now resp :
    is_claim_ok resp = true ->
    table_effect rows (POST_claim body now) resp
      (update (by_sessionCreationToken (text (body_sessionCreationToken body)))
         claim_update rows).

(** ** Sample data *)

Definition alice : User := {| user_id := "user-1"; user_email := "alice@example.com" |}.

Definition bob : User := {| user_id := "user-2"; user_email := "bob@example.com" |}.

Definition as_caller (usr : User) : option SessionContext :=
  Some {| session_user := Some usr |}.

Definition scan (tid tok : string) : VerifyBody :=
  {| body_tokenId := Value tid; body_token := Value tok |}.

Definition claim_of (sct : string) : ClaimBody :=
  {| body_sessionCreationToken := Value sct |}.

(** A row as [POST /qr/generate] writes it at time 0 under the default
    configuration. *)
Definition pending_row : QRToken :=
  {| id := "qr-1";
     token := "secret-1";
     createdAt := 0;
     expiresAt := 300000;
     isUsed := false;
     userId := Undefined;
     verifiedAt := Undefined;
     sessionCreationToken := Undefined;
     sessionCreationTokenExpiresAt := Undefined |}.

(** The same row after alice's scan at time 1000. *)
Definition verified_row : QRToken :=
  {| id := "qr-1";
     token := "secret-1";
     createdAt := 0;
     expiresAt := 300000;
     isUsed := true;
     userId := Value "user-1";
     verifiedAt := Value 1000;
     sessionCreationToken := Value "sct-1";
     sessionCreationTokenExpiresAt := Value 301000 |}.

(** A row generated with [tokenExpirationMinutes = 60] and scanned at time
    1000: its first expiry lies long after the second. *)
Definition long_lived_verified_row : QRToken :=
  {| id := "qr-2";
     token := "secret-2";
     createdAt := 0;
     expiresAt := 3600000;
     isUsed := true;
     userId := Value "user-1";
     verifiedAt := Value 1000;
     sessionCreationToken := Value "sct-2";
     sessionCreationTokenExpiresAt := Value 301000 |}.

Definition database_of (rows : list QRToken) : Database :=
  {| qrToken_table := rows; user_table := [alice; bob] |}.

(** A session system that always creates the session and sets the cookie. *)
Definition willing : SessionSystem :=
  {| createSession := fun uid =>
       Created {| session_token := ("session-for-" ++ uid)%string;
                  session_expiresAt := 604800000 |};
     setSessionCookie := fun _ _ => None |}.

(** Two scans of the same QR code in flight together: alice's and bob's. *)
Definition racing_scans : list (Async Response) :=
  [ verifyToken (scan "qr-1" "secret-1") (as_caller alice) "sct-1" 1000 1000 1000;
    verifyToken (scan "qr-1" "secret-1") (as_caller bob) "sct-2" 1001 1001 1001 ].

(** The row after bob's write landed on top of alice's. *)
Definition row_bound_to_bob : QRToken :=
  {| id := "qr-1";
     token := "secret-1";
     createdAt := 0;
     expiresAt := 300000;
     isUsed := true;
     userId := Value "user-2";
     verifiedAt := Value 1001;
     sessionCreationToken := Value "sct-2";
     sessionCreationTokenExpiresAt := Value 301001 |}.

(** ** Further predicates on tables and requests *)

(** No row of the table has the id [i]. *)
Definition no_row_with_id (i : string) (rows : list QRToken) : bool :=
  forallb (fun r => negb (matches (by_id i) r)) rows.

(** A [POST /qr/generate] whose first draw is the id [i]. *)
Definition generates (i : string) (req : Request) : bool :=
  match req with
  | POST_generate tokenId _ _ _ => String.eqb tokenId i
  | _ => false
  end.

Definition never_generates (i : string) (arrivals : list (SessionSystem * Request)) : bool :=
  forallb (fun a => negb (generates i (snd a))) arrivals.

(** The row [generateToken] stores. *)
Definition generated_row (parsedConfig : QRAuthConfig) (tokenId token : string)
  (now : Z) : QRToken :=
  {| id := tokenId;
     token := token;
     createdAt := now;
     expiresAt := now + tokenExpirationMinutes parsedConfig * 60 * 1000;
     isUsed := false;
     userId := Undefined;
     verifiedAt := Undefined;
     sessionCreationToken := Undefined;
     sessionCreationTokenExpiresAt := Undefined |}.

(** A scan of the token [tid] that does not carry its secret [tok]. *)
Definition wrong_scan (tid tok : string) (req : Request) : bool :=
  match req with
  | POST_verify body _ _ _ _ _ =>
      match body_tokenId body with
      | Value i => String.eqb i tid
      | _ => false
      end
      && match body_token body with
         | Value s => negb (String.eqb s tok)
         | _ => true
         end
  | _ => false
  end.

(** The session the session system creates for [uid] and sets the cookie
    for, when both calls go through. *)
Definition session_ready (sys : SessionSystem) (uid : string) (usr : User)
  : option Session :=
  match createSession sys uid with
  | Created s =>
      match setSessionCookie sys s usr with
      | None => Some s
      | Some _ => None
      end
  | _ => None
  end.

(** A session system whose [createSession] throws. *)
Definition failing : SessionSystem :=
  {| createSession := fun _ => Threw (Some "database unavailable");
     setSessionCookie := fun _ _ => None |}.


(** The token id a scan or a status poll names. *)
Definition requested_id (req : Request) : option string :=
  match req with
  | POST_verify body _ _ _ _ _ => Some (text (body_tokenId body))
  | GET_status tokenId _ _ => Some (text tokenId)
  | _ => None
  end.


(** ** The plugin's configuration and rate limit *)

(** What the caller of [qrAuth] may pass: every field is optional. *)
Record EndpointsInput : Type := {
  input_generateToken : option string;
  input_verifyToken : option string;
  input_pollStatus : option string;
  input_claimSession : option string
}.

Record QRAuthConfigInput : Type := {
  input_tokenExpirationMinutes : option Z;
  input_qrCodeSize : option Z;
  input_endpoints : option EndpointsInput
}.

Record Endpoints : Type := {
  path_generateToken : string;
  path_verifyToken : string;
  path_pollStatus : string;
  path_claimSession : string
}.

(** [z.number().min(lo).max(hi).default(dflt)]: a missing value becomes the
    default, a value outside the bounds is a parse error. *)
Definition number_min_max_default (lo hi dflt : Z) (v : option Z) : option Z :=
  match v with
  | None => Some dflt
  | Some x => if (lo <=? x) && (x <=? hi) then Some x else None
  end.

(** [z.string().default(dflt)]. *)
Definition string_default (dflt : string) (v : option string) : string :=
  match v with
  | None => dflt
  | Some s => s
  end.

Definition no_endpoints : EndpointsInput :=
  {| input_generateToken := None;
     input_verifyToken := None;
     input_pollStatus := None;
     input_claimSession := None |}.

(** [qrAuthConfigSchema.parse]: [None] when the schema rejects the input. *)
Definition qrAuthConfigSchema_parse (input : QRAuthConfigInput)
  : option (QRAuthConfig * Endpoints) :=
  match number_min_max_default 1 60 5 (input_tokenExpirationMinutes input),
        number_min_max_default 128 512 256 (input_qrCodeSize input) with
  | Some minutes, Some size =>
      let endpoints :=
        match input_endpoints input with
        | Some e => e
        | None => no_endpoints
        end in
      Some ({| tokenExpirationMinutes := minutes; qrCodeSize := size |},
            {| path_generateToken :=
                 string_default "/qr/generate" (input_generateToken endpoints);
               path_verifyToken :=
                 string_default "/qr/verify" (input_verifyToken endpoints);
               path_pollStatus :=
                 string_default "/qr/status" (input_pollStatus endpoints);
               path_claimSession :=
                 string_default "/qr/claim-session" (input_claimSession endpoints) |})
  | _, _ => None
  end.

Definition empty_input : QRAuthConfigInput :=
  {| input_tokenExpirationMinutes := None;
     input_qrCodeSize := None;
     input_endpoints := None |}.

(** [qrAuth(config)] parses [config || {}]. *)
Definition qrAuth_config (config : option QRAuthConfigInput)
  : option (QRAuthConfig * Endpoints) :=
  qrAuthConfigSchema_parse
    match config with
    | Some c => c
    | None => empty_input
    end.

(** The plugin's one rate limit rule. *)
Record RateLimitRule : Type := {
  pathMatcher : string -> bool;
  max : Z;
  window : Z
}.

Definition rateLimit : list RateLimitRule :=
  [ {| pathMatcher := fun path => prefix "/qr/" path; max := 10; window := 60 |} ].

Definition rate_limited (path : string) : bool :=
  existsb (fun rule => pathMatcher rule path) rateLimit.

(** The path an endpoint was configured with, if any. *)
Definition configured (config : option QRAuthConfigInput)
  (pick : EndpointsInput -> option string) : option string :=
  match config with
  | Some c =>
      match input_endpoints c with
      | Some e => pick e
      | None => None
      end
  | None => None
  end.


(** The [tokenExpirationMinutes] the caller configured, if any. *)
Definition configured_minutes (config : option QRAuthConfigInput) : option Z :=
  match config with
  | Some c => input_tokenExpirationMinutes c
  | None => None
  end.


(** An endpoint left at its default path is rate limited; one moved to a
    configured path is rate limited exactly when that path starts with
    [/qr/]. *)
Definition covered_unless_moved (configured_path : option string) (path : string)
  : Prop :=
  match configured_path with
  | None => rate_limited path = true
  | Some p => path = p /\ (rate_limited path = true <-> prefix "/qr/" p = true)
  end.


(** ** The web client *)

#[local] Set Warnings "-register-all".

(** A value [JSON.parse] can produce. A number is kept as a fraction. *)
Inductive JsValue : Type :=
| js_null
| js_bool (b : bool)
| js_number (numerator : Z) (denominator : positive)
| js_string (s : string)
| js_array (items : list JsValue)
| js_object (fields : list (string * JsValue)).

(** [v.key]: reading a property of [null] throws a [TypeError] (the outer
    [None]); a value without the property gives [undefined] (the inner
    [None]). *)
Definition read_property (v : JsValue) (key : string) : option (option JsValue) :=
  match v with
  | js_null => None
  | js_object fields =>
      Some (option_map snd (find (fun kv => String.eqb (fst kv) key) fields))
  | _ => Some None
  end.

Definition js_truthy (v : option JsValue) : bool :=
  match v with
  | None => false
  | Some js_null => false
  | Some (js_bool b) => b
  | Some (js_number n _) => negb (n =? 0)
  | Some (js_string s) => negb (String.eqb s EmptyString)
  | Some (js_array _) => true
  | Some (js_object _) => true
  end.

(** [v || null]. *)
Definition or_null (v : option JsValue) : option JsValue :=
  if js_truthy v then v else None.

(** What [JSON.parse] does with the scanned text: a value, or a
    [SyntaxError] with its message. *)
Inductive ParseOutcome : Type :=
| Parsed (v : JsValue)
| SyntaxError (message : string).

Record APIResponse : Type := {
  data : option JsValue;
  error : option JsValue
}.

(** What a call of [$fetch] comes to: a response object with its [data] and
    [error], or a thrown value ([Some] message when it is an [Error]). *)
Inductive FetchOutcome : Type :=
| fetch_resolved (response_data response_error : option JsValue)
| fetch_rejected (thrown : option string).

(** [$fetch(path, { method, body })]. *)
Definition Fetch : Type := string -> string -> option JsValue -> FetchOutcome.

Section WebClient.

(** The message of the [TypeError] the engine throws for a property read on
    [null]. *)
Variable TypeError_message : string.

Variable fetch : Fetch.

(** [defaultEndpoints.verifyToken]. *)
Variable verifyToken_path : string.

(** [parseQRCode], given what [JSON.parse] made of the scanned text. *)
Definition parseQRCode (qrCodeData : ParseOutcome) : APIResponse :=
  match qrCodeData with
  | SyntaxError message =>
      {| data := None; error := Some (js_string message) |}
  | Parsed parsed =>
      match read_property parsed "tokenId",
            read_property parsed "token",
            read_property parsed "serverUrl" with
      | Some tokenId, Some token, Some serverUrl =>
          if negb (js_truthy tokenId) || negb (js_truthy token)
             || negb (js_truthy serverUrl)
          then {| data := None; error := Some (js_string "Invalid QR code format") |}
          else {| data := Some parsed; error := None |}
      | _, _, _ =>
          {| data := None; error := Some (js_string TypeError_message) |}
      end
  end.

(** [verifyQRScan], called without [fetchOptions]. *)
Definition verifyQRScan (scanned : option JsValue) : APIResponse :=
  match fetch verifyToken_path "POST" scanned with
  | fetch_resolved response_data response_error =>
      {| data := or_null response_data; error := or_null response_error |}
  | fetch_rejected (Some message) =>
      {| data := None; error := Some (js_string message) |}
  | fetch_rejected None =>
      {| data := None; error := Some (js_string "Verification failed") |}
  end.

(** [handleQRCodeScan], called without [fetchOptions]. *)
Definition handleQRCodeScan (qrCodeValue : ParseOutcome) : APIResponse :=
  let parseResult := parseQRCode qrCodeValue in
  if js_truthy (error parseResult) then parseResult
  else verifyQRScan (data parseResult).

End WebClient.

(** The object [generateToken] serialises into the QR code, as [JSON.parse]
    gives it back. *)
Definition qrDataObject (payload : QRCodeData) : JsValue :=
  js_object
    [ ("tokenId", js_string (qr_tokenId payload));
      ("token", js_string (qr_token payload));
      ("serverUrl", js_string (qr_serverUrl payload)) ].

(** The payload carried by a [generateToken] response. *)
Definition payload_of (resp : Response) : option QRCodeData :=
  match resp with
  | generate_ok _ qrCode _ => Some qrCode
  | _ => None
  end.

(** A server stub for the client's [$fetch]: it answers every request with
    the same data. *)
Definition answering (response_data : JsValue) : Fetch :=
  fun _ _ _ => fetch_resolved (Some response_data) None.

(** * Properties *)

(** ** The adapter *)

Lemma truthy_Value (s : string) : truthy (Value s) = true <-> s <> EmptyString.
Proof.
  unfold truthy. destruct (String.eqb_spec s EmptyString); simpl; split; congruence.
Qed.

Lemma truthy_Value_true (s : string) : s <> EmptyString -> truthy (Value s) = true.
Proof. apply truthy_Value. Qed.

Lemma truthy_text (v : optional string) : truthy v = true -> v = Value (text v).
Proof. destruct v; simpl; congruence. Qed.

Lemma matches_by_id_update (w : Where) (set : QRToken -> QRToken) (i : string) (r : QRToken) :
  (forall q, id (set q) = id q) ->
  matches (by_id i) (if matches w r then set r else r) = matches (by_id i) r.
Proof.
  intros Hid. unfold matches at 1 3. simpl.
  destruct (matches w r); [rewrite Hid|]; reflexivity.
Qed.

Lemma findOne_by_id_update (w : Where) (set : QRToken -> QRToken) (i : string)
  (rows : list QRToken) :
  (forall q, id (set q) = id q) ->
  findOne (by_id i) (update w set rows) =
  option_map (fun r => if matches w r then set r else r) (findOne (by_id i) rows).
Proof.
  intros Hid. unfold findOne, update.
  induction rows as [|r rows IH]; simpl; [reflexivity|].
  rewrite (matches_by_id_update w set i r Hid).
  destruct (matches (by_id i) r); [reflexivity|exact IH].
Qed.

Lemma findOne_some_matches (w : Where) (rows : list QRToken) (r : QRToken) :
  findOne w rows = Some r -> In r rows /\ matches w r = true.
Proof. unfold findOne. apply find_some. Qed.

Lemma findOne_none_matches (w : Where) (rows : list QRToken) :
  findOne w rows = None -> forall r, In r rows -> matches w r = false.
Proof. unfold findOne. apply find_none. Qed.

Lemma findOne_delete (w : Where) (rows : list QRToken) :
  findOne w (delete w rows) = None.
Proof.
  unfold findOne, delete.
  induction rows as [|r rows IH]; simpl; [reflexivity|].
  destruct (matches w r) eqn:E; simpl; [exact IH|].
  rewrite E. exact IH.
Qed.

Lemma matches_claim_update (w : Where) (t : string) (r : QRToken) :
  matches (by_sessionCreationToken t) (if matches w r then claim_update r else r)
  = matches (by_sessionCreationToken t) r && negb (matches w r).
Proof.
  destruct (matches w r); simpl.
  - rewrite andb_false_r. reflexivity.
  - rewrite andb_true_r. reflexivity.
Qed.

Lemma no_match_after_claim (t : string) (rows : list QRToken) (r : QRToken) :
  In r (update (by_sessionCreationToken t) claim_update rows) ->
  matches (by_sessionCreationToken t) r = false.
Proof.
  unfold update. rewrite in_map_iff. intros [q [<- _]].
  rewrite matches_claim_update. apply andb_negb_r.
Qed.

Lemma findOne_after_claim (t : string) (rows : list QRToken) :
  findOne (by_sessionCreationToken t)
    (update (by_sessionCreationToken t) claim_update rows) = None.
Proof.
  unfold findOne.
  destruct (find _ _) eqn:E; [|reflexivity].
  apply find_some in E. destruct E as [Hin Hm].
  rewrite (no_match_after_claim t rows q Hin) in Hm. discriminate.
Qed.

(** ** [verifyToken] *)

(** What a well-formed, authenticated scan does, test by test in the order
    the handler makes them. *)
Lemma run_verifyToken (sys : SessionSystem) (db : Database) (tid tok : string)
  (usr : User) (fresh : string) (now_check now_mint now_stamp : Z) :
  tid <> EmptyString -> tok <> EmptyString ->
  run sys (verifyToken (scan tid tok) (as_caller usr) fresh now_check now_mint now_stamp) db =
  match findOne (by_id tid) (qrToken_table db) with
  | None => (json_error "Token not found" 404, db)
  | Some qrToken =>
      if negb (String.eqb (token qrToken) tok) then
        (json_error "Invalid token" 401, db)
      else if expiresAt qrToken <? now_check then
        (json_error "Token expired" 410,
         with_rows db (delete (by_id tid) (qrToken_table db)))
      else if isUsed qrToken then
        (json_error "Token already used" 409, db)
      else
        (verify_ok (user_id usr) usr fresh (now_mint + 300000),
         with_rows db
           (update (by_id tid)
              (verify_update (user_id usr) now_stamp fresh (now_mint + 300000))
              (qrToken_table db)))
  end.
Proof.
  intros Htid Htok. unfold verifyToken, scan, as_caller.
  cbn [body_tokenId body_token].
  rewrite (truthy_Value_true tid Htid), (truthy_Value_true tok Htok).
  cbn [negb orb text run].
  destruct (findOne (by_id tid) (qrToken_table db)) as [q|]; [|reflexivity].
  destruct (String.eqb (token q) tok); cbn [negb]; [|reflexivity].
  destruct (expiresAt q <? now_check); [reflexivity|].
  destruct (isUsed q); reflexivity.
Qed.

(** C5: a scan of a pending, unexpired row with the matching secret by an
    authenticated caller succeeds; it marks the row used, binds it to the
    caller, stamps [verifiedAt] with the clock, stores the freshly drawn
    session-creation token with an expiry five minutes after the clock
    (whatever the row's own [expiresAt]), leaves the other columns alone, and
    answers with the caller's identity and that same token. *)
Theorem verifyToken_binds_and_mints (sys : SessionSystem) (db : Database)
  (tid tok : string) (usr : User) (fresh : string)
  (now_check now_mint now_stamp : Z) (r : QRToken) :
  tid <> EmptyString -> tok <> EmptyString ->
  findOne (by_id tid) (qrToken_table db) = Some r ->
  isUsed r = false ->
  now_check <= expiresAt r ->
  token r = tok ->
  let outcome :=
    run sys (verifyToken (scan tid tok) (as_caller usr) fresh
               now_check now_mint now_stamp) db in
  fst outcome = verify_ok (user_id usr) usr fresh (now_mint + 5 * 60 * 1000)
  /\ exists r',
       findOne (by_id tid) (qrToken_table (snd outcome)) = Some r'
       /\ isUsed r' = true
       /\ userId r' = Value (user_id usr)
       /\ verifiedAt r' = Value now_stamp
       /\ sessionCreationToken r' = Value fresh
       /\ sessionCreationTokenExpiresAt r' = Value (now_mint + 5 * 60 * 1000)
       /\ id r' = id r /\ token r' = token r
       /\ createdAt r' = createdAt r /\ expiresAt r' = expiresAt r.
Proof.
  intros Htid Htok Hfind Hpending Hlive Hsecret outcome.
  subst outcome tok. rewrite (run_verifyToken sys db tid (token r) usr) by assumption.
  rewrite Hfind, String.eqb_refl, Hpending. cbn [negb].
  assert (Hnot : (expiresAt r <? now_check) = false) by (apply Z.ltb_ge; lia).
  rewrite Hnot. cbn [fst snd with_rows qrToken_table].
  split; [reflexivity|].
  rewrite findOne_by_id_update by reflexivity.
  rewrite Hfind. cbn [option_map].
  destruct (findOne_some_matches _ _ _ Hfind) as [_ Hm]. rewrite Hm.
  eexists. split; [reflexivity|]. cbn. repeat split; reflexivity.
Qed.

Lemma verifyToken_binds_and_mints_witness :
  fst (run willing (verifyToken (scan "qr-1" "secret-1") (as_caller alice) "sct-1"
                      1000 1000 1000) (database_of [pending_row]))
  = verify_ok "user-1" alice "sct-1" 301000
  /\ findOne (by_id "qr-1")
       (qrToken_table
          (snd (run willing (verifyToken (scan "qr-1" "secret-1") (as_caller alice)
                               "sct-1" 1000 1000 1000) (database_of [pending_row]))))
     = Some verified_row.
Proof.
  destruct (verifyToken_binds_and_mints willing (database_of [pending_row])
              "qr-1" "secret-1" alice "sct-1" 1000 1000 1000 pending_row)
    as [Hresp _].
  - discriminate.
  - discriminate.
  - reflexivity.
  - reflexivity.
  - simpl. lia.
  - reflexivity.
  - split; [exact Hresp|reflexivity].
Defined.

(** C3, as the handler orders its tests: the row is looked up, then the
    secret is compared, then the expiry is tested (an expired row is deleted),
    then the used flag; the first test that fails ends the request. A wrong
    secret is therefore answered with the invalid-token error whether or not
    the row has expired, and leaves the table as it was. *)
Theorem verifyToken_order_of_tests (sys : SessionSystem) (db : Database)
  (tid tok : string) (usr : User) (fresh : string)
  (now_check now_mint now_stamp : Z) :
  tid <> EmptyString -> tok <> EmptyString ->
  let outcome :=
    run sys (verifyToken (scan tid tok) (as_caller usr) fresh
               now_check now_mint now_stamp) db in
  (findOne (by_id tid) (qrToken_table db) = None ->
     outcome = (json_error "Token not found" 404, db))
  /\ (forall r, findOne (by_id tid) (qrToken_table db) = Some r ->
        token r <> tok ->
        outcome = (json_error "Invalid token" 401, db))
  /\ (forall r, findOne (by_id tid) (qrToken_table db) = Some r ->
        token r = tok -> expiresAt r < now_check ->
        fst outcome = json_error "Token expired" 410
        /\ qrToken_table (snd outcome) = delete (by_id tid) (qrToken_table db)
        /\ findOne (by_id tid) (qrToken_table (snd outcome)) = None)
  /\ (forall r, findOne (by_id tid) (qrToken_table db) = Some r ->
        token r = tok -> now_check <= expiresAt r -> isUsed r = true ->
        outcome = (json_error "Token already used" 409, db))
  /\ (forall r, findOne (by_id tid) (qrToken_table db) = Some r ->
        token r = tok -> now_check <= expiresAt r -> isUsed r = false ->
        is_verify_ok (fst outcome) = true).
Proof.
  intros Htid Htok outcome. subst outcome.
  rewrite (run_verifyToken sys db tid tok usr) by assumption.
  split; [|split; [|split; [|split]]].
  - intros ->. reflexivity.
  - intros r -> Hne. apply String.eqb_neq in Hne. rewrite Hne. reflexivity.
  - intros r -> <- Hdead. rewrite String.eqb_refl. cbn [negb].
    apply Z.ltb_lt in Hdead. rewrite Hdead.
    cbn [fst snd with_rows qrToken_table].
    split; [reflexivity|]. split; [reflexivity|]. apply findOne_delete.
  - intros r -> <- Hlive ->. rewrite String.eqb_refl. cbn [negb].
    apply Z.ltb_ge in Hlive. rewrite Hlive. reflexivity.
  - intros r -> <- Hlive ->. rewrite String.eqb_refl. cbn [negb].
    apply Z.ltb_ge in Hlive. rewrite Hlive. reflexivity.
Qed.

Lemma verifyToken_order_of_tests_witness :
  run willing (verifyToken (scan "qr-1" "guess") (as_caller alice) "sct-1"
                 400000 400000 400000) (database_of [pending_row])
  = (json_error "Invalid token" 401, database_of [pending_row]).
Proof.
  destruct (verifyToken_order_of_tests willing (database_of [pending_row])
              "qr-1" "guess" alice "sct-1" 400000 400000 400000)
    as [_ [Hsecret _]].
  - discriminate.
  - discriminate.
  - apply (Hsecret pending_row); [reflexivity|discriminate].
Defined.

(** C3, counterexample to the order as claimed: the row has expired and the
    secret is wrong, and the answer is the invalid-token error, not the
    expired one; the expired row is still in the table afterwards. *)
Lemma verifyToken_wrong_secret_hides_expiry :
  findOne (by_id "qr-1") (qrToken_table (database_of [pending_row])) = Some pending_row
  /\ expiresAt pending_row < 400000
  /\ token pending_row <> "guess"
  /\ run willing (verifyToken (scan "qr-1" "guess") (as_caller alice) "sct-1"
                    400000 400000 400000) (database_of [pending_row])
     = (json_error "Invalid token" 401, database_of [pending_row])
  /\ json_error "Invalid token" 401 <> json_error "Token expired" 410.
Proof.
  repeat split; try reflexivity; discriminate.
Qed.

(** C7, as the handler answers: an unknown id and a wrong secret are told
    apart, by message and by status. An id with no row gets "Token not found"
    with status 404; a row whose secret differs gets "Invalid token" with
    status 401. *)
Theorem verifyToken_tells_unknown_id_from_wrong_secret (sys : SessionSystem)
  (db : Database) (tid1 tok1 tid2 tok2 : string) (usr1 usr2 : User)
  (fresh1 fresh2 : string) (c1 m1 s1 c2 m2 s2 : Z) (r : QRToken) :
  tid1 <> EmptyString -> tok1 <> EmptyString -> tid2 <> EmptyString -> tok2 <> EmptyString ->
  findOne (by_id tid1) (qrToken_table db) = None ->
  findOne (by_id tid2) (qrToken_table db) = Some r ->
  token r <> tok2 ->
  let unknown := fst (run sys (verifyToken (scan tid1 tok1) (as_caller usr1) fresh1 c1 m1 s1) db) in
  let wrong := fst (run sys (verifyToken (scan tid2 tok2) (as_caller usr2) fresh2 c2 m2 s2) db) in
  unknown = json_error "Token not found" 404
  /\ wrong = json_error "Invalid token" 401
  /\ unknown <> wrong.
Proof.
  intros H1 H2 H3 H4 Hnone Hsome Hne unknown wrong. subst unknown wrong.
  rewrite !run_verifyToken by assumption.
  rewrite Hnone, Hsome. apply String.eqb_neq in Hne. rewrite Hne.
  cbn. repeat split; discriminate.
Qed.

Lemma verifyToken_tells_unknown_id_from_wrong_secret_witness :
  fst (run willing (verifyToken (scan "qr-9" "secret-1") (as_caller alice) "sct-1" 1000 1000 1000)
         (database_of [pending_row]))
  <> fst (run willing (verifyToken (scan "qr-1" "guess") (as_caller alice) "sct-1" 1000 1000 1000)
            (database_of [pending_row])).
Proof.
  apply (verifyToken_tells_unknown_id_from_wrong_secret willing
           (database_of [pending_row]) "qr-9" "secret-1" "qr-1" "guess" alice alice
           "sct-1" "sct-1" 1000 1000 1000 1000 1000 1000 pending_row);
    try discriminate; reflexivity.
Defined.

(** C7, counterexample to the claimed indistinguishability: the same caller
    asks about an id that has no row and about an existing row with a wrong
    secret, and reads two different errors. *)
Lemma verifyToken_error_is_an_oracle :
  findOne (by_id "qr-9") (qrToken_table (database_of [pending_row])) = None
  /\ findOne (by_id "qr-1") (qrToken_table (database_of [pending_row])) = Some pending_row
  /\ token pending_row <> "guess"
  /\ fst (run willing (verifyToken (scan "qr-9" "guess") (as_caller alice) "sct-1" 1000 1000 1000)
            (database_of [pending_row]))
     = json_error "Token not found" 404
  /\ fst (run willing (verifyToken (scan "qr-1" "guess") (as_caller alice) "sct-1" 1000 1000 1000)
            (database_of [pending_row]))
     = json_error "Invalid token" 401
  /\ json_error "Token not found" 404 <> json_error "Invalid token" 401.
Proof.
  repeat split; try reflexivity; discriminate.
Qed.

(** ** [pollStatus] *)

Lemma run_pollStatus (sys : SessionSystem) (db : Database)
  (tokenId : optional string) (now_first now_second : Z) :
  truthy tokenId = true ->
  run sys (pollStatus tokenId now_first now_second) db =
  match findOne (by_id (text tokenId)) (qrToken_table db) with
  | None => (json_error "Token not found" 404, db)
  | Some qrToken =>
      let fallthrough :=
        status_ok (if isUsed qrToken then completed else pending)
          (userId qrToken) None None
          (iso_or_null (verifiedAt qrToken)) (expiresAt qrToken) in
      if expiresAt qrToken <? now_first then
        (json_error "Token expired" 410,
         with_rows db (delete (by_id (text tokenId)) (qrToken_table db)))
      else if isUsed qrToken then
        match findUser (userId qrToken) (user_table db) with
        | Some usr =>
            if truthy (sessionCreationToken qrToken)
               && date_gt (new_Date (sessionCreationTokenExpiresAt qrToken)) now_second
            then
              (status_ok completed (userId qrToken) (Some usr)
                 (Some (text (sessionCreationToken qrToken)))
                 (iso_or_null (verifiedAt qrToken)) (expiresAt qrToken), db)
            else (fallthrough, db)
        | None => (fallthrough, db)
        end
      else (fallthrough, db)
  end.
Proof.
  intros Htruthy. unfold pollStatus. rewrite Htruthy. cbn [negb run].
  destruct (findOne _ _) as [q|]; [|reflexivity].
  destruct (expiresAt q <? now_first); [reflexivity|].
  destruct (isUsed q); [|reflexivity]. cbn [run].
  destruct (findUser _ _); [|reflexivity].
  destruct (truthy (sessionCreationToken q)); [|reflexivity].
  destruct (date_gt _ _); reflexivity.
Qed.

Lemma pollStatus_missing_id (sys : SessionSystem) (db : Database)
  (tokenId : optional string) (now_first now_second : Z) :
  truthy tokenId = false ->
  run sys (pollStatus tokenId now_first now_second) db
  = (json_error "Token ID required" 400, db).
Proof. intros H. unfold pollStatus. rewrite H. reflexivity. Qed.

(** C2, as the handler reports expiry: a missing row is answered with the
    not-found error; a row whose [expiresAt] has passed is answered with the
    expired error and deleted, used or not; a row that is not used and whose
    [expiresAt] has not passed is answered [pending]; a used row whose two
    expiry times have both not passed is answered [completed]. *)
Theorem pollStatus_expiry_report (sys : SessionSystem) (db : Database)
  (tokenId : optional string) (now_first now_second : Z) :
  truthy tokenId = true ->
  let lookup := findOne (by_id (text tokenId)) (qrToken_table db) in
  let outcome := run sys (pollStatus tokenId now_first now_second) db in
  (lookup = None -> outcome = (json_error "Token not found" 404, db))
  /\ (forall r, lookup = Some r -> expiresAt r < now_first ->
        fst outcome = json_error "Token expired" 410
        /\ qrToken_table (snd outcome)
           = delete (by_id (text tokenId)) (qrToken_table db)
        /\ findOne (by_id (text tokenId)) (qrToken_table (snd outcome)) = None)
  /\ (forall r, lookup = Some r -> now_first <= expiresAt r -> isUsed r = false ->
        outcome = (status_ok pending (userId r) None None
                     (iso_or_null (verifiedAt r)) (expiresAt r), db))
  /\ (forall r, lookup = Some r -> now_first <= expiresAt r -> isUsed r = true ->
        date_gt (new_Date (sessionCreationTokenExpiresAt r)) now_second = true ->
        exists usr sct,
          outcome = (status_ok completed (userId r) usr sct
                       (iso_or_null (verifiedAt r)) (expiresAt r), db)).
Proof.
  intros Htruthy lookup outcome. subst lookup outcome.
  rewrite (run_pollStatus sys db tokenId) by assumption.
  split; [|split; [|split]].
  - intros ->. reflexivity.
  - intros r -> Hdead. apply Z.ltb_lt in Hdead. rewrite Hdead.
    cbn [fst snd with_rows qrToken_table].
    repeat split. apply findOne_delete.
  - intros r -> Hlive ->. apply Z.ltb_ge in Hlive. rewrite Hlive. reflexivity.
  - intros r -> Hlive -> Hopen. apply Z.ltb_ge in Hlive. rewrite Hlive, Hopen.
    destruct (findUser _ _); [|eexists; eexists; reflexivity].
    destruct (truthy (sessionCreationToken r)); eexists; eexists; reflexivity.
Qed.

Lemma pollStatus_expiry_report_witness :
  fst (run willing (pollStatus (Value "qr-1") 400000 400000)
         (database_of [verified_row]))
  = json_error "Token expired" 410
  /\ findOne (by_id "qr-1")
       (qrToken_table (snd (run willing (pollStatus (Value "qr-1") 400000 400000)
                              (database_of [verified_row]))))
     = None.
Proof.
  destruct (pollStatus_expiry_report willing (database_of [verified_row])
              (Value "qr-1") 400000 400000) as [_ [Hdead _]].
  - reflexivity.
  - destruct (Hdead verified_row) as [Hresp [_ Hgone]].
    + reflexivity.
    + simpl. lia.
    + split; [exact Hresp|exact Hgone].
Defined.

(** C2, counterexample to the report as claimed. An id with no row is
    answered with the not-found error, not the expired one. A used row whose
    [sessionCreationTokenExpiresAt] has passed while its [expiresAt] has not
    is answered [completed] (without a token), not expired, and stays in the
    table. *)
Lemma pollStatus_missing_and_lapsed_handoff :
  (findOne (by_id "qr-9") (qrToken_table (database_of [verified_row])) = None
   /\ run willing (pollStatus (Value "qr-9") 1000 1000) (database_of [verified_row])
      = (json_error "Token not found" 404, database_of [verified_row])
   /\ json_error "Token not found" 404 <> json_error "Token expired" 410)
  /\ (findOne (by_id "qr-2") (qrToken_table (database_of [long_lived_verified_row]))
      = Some long_lived_verified_row
      /\ isUsed long_lived_verified_row = true
      /\ sessionCreationTokenExpiresAt long_lived_verified_row = Value 301000
      /\ 301000 < 400000 <= expiresAt long_lived_verified_row
      /\ run willing (pollStatus (Value "qr-2") 400000 400000)
           (database_of [long_lived_verified_row])
         = (status_ok completed (Value "user-1") None None (Some 1000) 3600000,
            database_of [long_lived_verified_row])).
Proof.
  split; [repeat split; try reflexivity; discriminate|].
  repeat split; try reflexivity; simpl; lia.
Qed.

(** C4, as the handler answers: a row that is not used and whose [expiresAt]
    has not passed is reported [pending]; the answer for a row that is not
    used never carries a session-creation token; and an answer carries a
    session-creation token only when it is a [completed] answer for a used
    row, holding that row's token, with neither expiry time passed. *)
Theorem pollStatus_pending_and_disclosure (sys : SessionSystem) (db : Database)
  (tokenId : optional string) (now_first now_second : Z) :
  let lookup := findOne (by_id (text tokenId)) (qrToken_table db) in
  let resp := fst (run sys (pollStatus tokenId now_first now_second) db) in
  (forall r, truthy tokenId = true -> lookup = Some r ->
     isUsed r = false -> now_first <= expiresAt r ->
     resp = status_ok pending (userId r) None None
              (iso_or_null (verifiedAt r)) (expiresAt r))
  /\ (forall r, lookup = Some r -> isUsed r = false -> disclosed resp = None)
  /\ (forall t, disclosed resp = Some t ->
        exists r usr,
          lookup = Some r /\ isUsed r = true
          /\ sessionCreationToken r = Value t
          /\ date_gt (new_Date (sessionCreationTokenExpiresAt r)) now_second = true
          /\ now_first <= expiresAt r
          /\ resp = status_ok completed (userId r) (Some usr) (Some t)
                      (iso_or_null (verifiedAt r)) (expiresAt r)).
Proof.
  intros lookup resp. subst lookup resp.
  destruct (truthy tokenId) eqn:Htruthy.
  - rewrite (run_pollStatus sys db tokenId) by assumption.
    destruct (findOne _ _) as [q|].
    + destruct (Z.ltb_spec (expiresAt q) now_first) as [Hdead|Hlive].
      * split; [|split].
        -- intros r _ [= <-] _ Hlive. lia.
        -- intros. reflexivity.
        -- cbn. discriminate.
      * destruct (isUsed q) eqn:Hused.
        -- split; [|split].
           ++ intros r _ [= <-]. congruence.
           ++ intros r [= <-]. congruence.
           ++ destruct (findUser _ _) as [usr|]; [|cbn; discriminate].
              destruct (truthy (sessionCreationToken q)) eqn:Hsct;
                [|cbn; discriminate].
              destruct (date_gt _ _) eqn:Hopen; [|cbn; discriminate].
              cbn. intros t [= <-]. exists q, usr.
              rewrite <- (truthy_text _ Hsct). repeat split; assumption.
        -- split; [|split].
           ++ intros r _ [= <-] _ _. reflexivity.
           ++ intros. reflexivity.
           ++ cbn. discriminate.
    + split; [|split].
      * intros; discriminate.
      * intros; discriminate.
      * cbn. discriminate.
  - rewrite pollStatus_missing_id by assumption.
    split; [|split].
    + intros; discriminate.
    + intros. reflexivity.
    + cbn. discriminate.
Qed.

Lemma pollStatus_pending_and_disclosure_witness :
  fst (run willing (pollStatus (Value "qr-1") 1000 1000) (database_of [pending_row]))
  = status_ok pending Undefined None None None 300000.
Proof.
  destruct (pollStatus_pending_and_disclosure willing (database_of [pending_row])
              (Value "qr-1") 1000 1000) as [Hpending _].
  apply (Hpending pending_row).
  - reflexivity.
  - reflexivity.
  - reflexivity.
  - simpl. lia.
Defined.

(** C4, counterexample to [pending] for every row that is not used: the row
    is not used, its [expiresAt] has passed, and the answer is the expired
    error. *)
Lemma pollStatus_unused_row_reported_expired :
  findOne (by_id "qr-1") (qrToken_table (database_of [pending_row])) = Some pending_row
  /\ isUsed pending_row = false
  /\ expiresAt pending_row < 400000
  /\ fst (run willing (pollStatus (Value "qr-1") 400000 400000)
            (database_of [pending_row]))
     = json_error "Token expired" 410
  /\ forall uid usr sct verified expires,
       json_error "Token expired" 410
       <> status_ok pending uid usr sct verified expires.
Proof.
  repeat split; try reflexivity; discriminate.
Qed.

(** ** [claimSession] *)

Lemma run_claimSession (sys : SessionSystem) (db : Database) (body : ClaimBody)
  (now : Z) :
  truthy (body_sessionCreationToken body) = true ->
  let clause := by_sessionCreationToken (text (body_sessionCreationToken body)) in
  run sys (claimSession body now) db =
  match findOne clause (qrToken_table db) with
  | None => (json_error "Invalid session creation token" 404, db)
  | Some qrToken =>
      if negb (isUsed qrToken) || negb (truthy (userId qrToken)) then
        (json_error "QR token not properly verified" 400, db)
      else if date_le (new_Date (sessionCreationTokenExpiresAt qrToken)) now then
        (json_error "Session creation token expired" 410, db)
      else
        match findUser (userId qrToken) (user_table db) with
        | None => (json_error "User not found" 404, db)
        | Some usr =>
            match createSession sys (text (userId qrToken)) with
            | Threw m => (json_error (failure_message m) 500, db)
            | ReturnedNull => (json_error "Failed to create session" 500, db)
            | Created sessionToken =>
                match setSessionCookie sys sessionToken usr with
                | Some m => (json_error (failure_message m) 500, db)
                | None =>
                    (claim_ok (text (userId qrToken)) usr
                       (session_token sessionToken)
                       (session_expiresAt sessionToken),
                     with_rows db (update clause claim_update (qrToken_table db)))
                end
            end
        end
  end.
Proof.
  intros Htruthy clause. subst clause. unfold claimSession.
  rewrite Htruthy. cbn [negb run].
  destruct (findOne _ _) as [q|]; [|reflexivity].
  destruct (negb (isUsed q) || negb (truthy (userId q))); [reflexivity|].
  destruct (date_le _ _); [reflexivity|]. cbn [run].
  destruct (findUser _ _); [|reflexivity]. cbn [run].
  destruct (createSession _ _); try reflexivity. cbn [run].
  destruct (setSessionCookie _ _ _); reflexivity.
Qed.

Lemma claimSession_missing_token (sys : SessionSystem) (db : Database)
  (body : ClaimBody) (now : Z) :
  truthy (body_sessionCreationToken body) = false ->
  run sys (claimSession body now) db
  = (json_error "Session creation token is required" 400, db).
Proof. intros H. unfold claimSession. rewrite H. reflexivity. Qed.

(** What a successful claim found and did. *)
Lemma claimSession_ok_inv (sys : SessionSystem) (db : Database) (body : ClaimBody)
  (now : Z) :
  is_claim_ok (fst (run sys (claimSession body now) db)) = true ->
  let clause := by_sessionCreationToken (text (body_sessionCreationToken body)) in
  truthy (body_sessionCreationToken body) = true
  /\ (exists q,
        findOne clause (qrToken_table db) = Some q
        /\ isUsed q = true /\ truthy (userId q) = true
        /\ date_le (new_Date (sessionCreationTokenExpiresAt q)) now = false)
  /\ snd (run sys (claimSession body now) db)
     = with_rows db (update clause claim_update (qrToken_table db)).
Proof.
  intros Hok clause. subst clause.
  destruct (truthy (body_sessionCreationToken body)) eqn:Htruthy.
  2:{ rewrite claimSession_missing_token in Hok by assumption. discriminate. }
  rewrite (run_claimSession sys db body now Htruthy) in Hok |- *.
  destruct (findOne _ _) as [q|]; [|discriminate].
  destruct (isUsed q) eqn:Hused; [|discriminate].
  destruct (truthy (userId q)) eqn:Huid; [|discriminate].
  cbn [negb orb] in *.
  destruct (date_le _ _) eqn:Hexp; [discriminate|].
  destruct (findUser _ _); [|discriminate].
  destruct (createSession _ _); try discriminate.
  destruct (setSessionCookie _ _ _); [discriminate|].
  split; [reflexivity|]. split; [|reflexivity].
  exists q. repeat split; assumption.
Qed.

(** ** Every request's effect on the table *)

Lemma verifyToken_effect (sys : SessionSystem) (db : Database) (body : VerifyBody)
  (session : option SessionContext) (fresh : string)
  (now_check now_mint now_stamp : Z) :
  let outcome := run sys (verifyToken body session fresh now_check now_mint now_stamp) db in
  table_effect (qrToken_table db)
    (POST_verify body session fresh now_check now_mint now_stamp)
    (fst outcome) (qrToken_table (snd outcome))
  /\ user_table (snd outcome) = user_table db.
Proof.
  unfold verifyToken.
  destruct (negb (truthy (body_tokenId body)) || negb (truthy (body_token body))).
  { split; [apply effect_none|]; reflexivity. }
  destruct session as [[[usr|]]|];
    try (split; [apply effect_none|]; reflexivity).
  cbn [run].
  destruct (findOne _ _) as [q|] eqn:Hfind;
    [|split; [apply effect_none|]; reflexivity].
  destruct (negb (String.eqb (token q) (text (body_token body))));
    [split; [apply effect_none|]; reflexivity|].
  destruct (expiresAt q <? now_check);
    [split; [apply effect_evict|]; reflexivity|].
  destruct (isUsed q) eqn:Hused;
    [split; [apply effect_none|]; reflexivity|].
  split; [|reflexivity].
  cbn [run fst snd with_rows qrToken_table].
  apply effect_verify with (q := q); [reflexivity|assumption|assumption].
Qed.

Lemma pollStatus_effect (sys : SessionSystem) (db : Database)
  (tokenId : optional string) (now_first now_second : Z) :
  let outcome := run sys (pollStatus tokenId now_first now_second) db in
  table_effect (qrToken_table db) (GET_status tokenId now_first now_second)
    (fst outcome) (qrToken_table (snd outcome))
  /\ user_table (snd outcome) = user_table db.
Proof.
  destruct (truthy tokenId) eqn:Htruthy.
  2:{ rewrite pollStatus_missing_id by assumption.
      split; [apply effect_none|]; reflexivity. }
  rewrite (run_pollStatus sys db tokenId) by assumption.
  destruct (findOne _ _) as [q|];
    [|split; [apply effect_none|]; reflexivity].
  cbv zeta.
  destruct (expiresAt q <? now_first);
    [split; [apply effect_evict|]; reflexivity|].
  destruct (isUsed q); [|split; [apply effect_none|]; reflexivity].
  destruct (findUser _ _); [|split; [apply effect_none|]; reflexivity].
  destruct (truthy (sessionCreationToken q) && _);
    split; try apply effect_none; reflexivity.
Qed.

Lemma claimSession_effect (sys : SessionSystem) (db : Database) (body : ClaimBody)
  (now : Z) :
  let outcome := run sys (claimSession body now) db in
  table_effect (qrToken_table db) (POST_claim body now)
    (fst outcome) (qrToken_table (snd outcome))
  /\ user_table (snd outcome) = user_table db.
Proof.
  destruct (truthy (body_sessionCreationToken body)) eqn:Htruthy.
  2:{ rewrite claimSession_missing_token by assumption.
      split; [apply effect_none|]; reflexivity. }
  rewrite (run_claimSession sys db body now Htruthy).
  destruct (findOne _ _) as [q|];
    [|split; [apply effect_none|]; reflexivity].
  destruct (negb (isUsed q) || negb (truthy (userId q)));
    [split; [apply effect_none|]; reflexivity|].
  destruct (date_le _ _); [split; [apply effect_none|]; reflexivity|].
  destruct (findUser _ _); [|split; [apply effect_none|]; reflexivity].
  destruct (createSession _ _);
    try (split; [apply effect_none|]; reflexivity).
  destruct (setSessionCookie _ _ _);
    [split; [apply effect_none|]; reflexivity|].
  split; [|reflexivity].
  cbn [fst snd with_rows qrToken_table]. apply effect_claim. reflexivity.
Qed.

Lemma endpoint_effect (parsedConfig : QRAuthConfig) (sys : SessionSystem)
  (req : Request) (db : Database) :
  let outcome := run sys (endpoint parsedConfig req) db in
  table_effect (qrToken_table db) req (fst outcome) (qrToken_table (snd outcome))
  /\ user_table (snd outcome) = user_table db.
Proof.
  destruct req; cbn [endpoint].
  - split; [|reflexivity]. cbn. apply effect_generate; reflexivity.
  - apply verifyToken_effect.
  - apply pollStatus_effect.
  - apply claimSession_effect.
Qed.

(** ** A claimed token stays dead *)

Lemma no_row_holds_findOne (t : string) (rows : list QRToken) :
  no_row_holds t rows = true ->
  findOne (by_sessionCreationToken t) rows = None.
Proof.
  unfold no_row_holds, findOne. intros Hall.
  induction rows as [|r rows IH]; [reflexivity|].
  cbn [forallb] in Hall. apply andb_prop in Hall. destruct Hall as [Hr Hrest].
  cbn [find]. apply negb_true_iff in Hr. rewrite Hr. apply IH, Hrest.
Qed.

Lemma no_row_holds_after_claim (t : string) (rows : list QRToken) :
  no_row_holds t (update (by_sessionCreationToken t) claim_update rows) = true.
Proof.
  unfold no_row_holds. apply forallb_forall. intros r Hin.
  rewrite (no_match_after_claim t rows r Hin). reflexivity.
Qed.

Lemma no_row_holds_effect (t : string) (rows rows' : list QRToken)
  (req : Request) (resp : Response) :
  table_effect rows req resp rows' ->
  mints t req = false ->
  no_row_holds t rows = true ->
  no_row_holds t rows' = true.
Proof.
  unfold no_row_holds. intros Heff Hmint Hall.
  rewrite forallb_forall in Hall.
  destruct Heff; apply forallb_forall; intros r Hin.
  - apply Hall, Hin.
  - unfold delete in Hin. apply filter_In in Hin. apply Hall, Hin.
  - unfold create in Hin. apply in_app_or in Hin. destruct Hin as [Hin|[<-|[]]].
    + apply Hall, Hin.
    + reflexivity.
  - unfold update in Hin. apply in_map_iff in Hin. destruct Hin as [r0 [<- Hin]].
    destruct (matches (by_id _) r0).
    + cbn in Hmint |- *. rewrite Hmint. reflexivity.
    + apply Hall, Hin.
  - unfold update in Hin. apply in_map_iff in Hin. destruct Hin as [r0 [<- Hin]].
    destruct (matches (by_sessionCreationToken (text _)) r0).
    + reflexivity.
    + apply Hall, Hin.
Qed.

Lemma no_row_holds_serve (parsedConfig : QRAuthConfig) (t : string)
  (arrivals : list (SessionSystem * Request)) (db : Database) :
  never_mints t arrivals = true ->
  no_row_holds t (qrToken_table db) = true ->
  no_row_holds t (qrToken_table (snd (serve parsedConfig arrivals db))) = true.
Proof.
  revert db. induction arrivals as [|[sys req] later IH]; intros db Hmint Hall.
  - exact Hall.
  - cbn [never_mints forallb snd] in Hmint. apply andb_prop in Hmint.
    destruct Hmint as [Hreq Hlater]. apply negb_true_iff in Hreq.
    cbn [serve].
    destruct (run sys (endpoint parsedConfig req) db) as [resp db1] eqn:Hrun.
    specialize (IH db1 Hlater).
    destruct (serve parsedConfig later db1) as [resps db2]. cbn [snd] in *.
    apply IH.
    destruct (endpoint_effect parsedConfig sys req db) as [Heff _].
    rewrite Hrun in Heff. cbn [fst snd] in Heff.
    exact (no_row_holds_effect t _ _ req resp Heff Hreq Hall).
Qed.

(** C1, for claims that do not overlap: once [claimSession] has succeeded
    for a session-creation token, the rows that held it have
    [sessionCreationToken] and [sessionCreationTokenExpiresAt] set to null,
    and every later claim with that token, after any requests served one
    after another in between that do not draw the same token again, is
    answered with the invalid-token error (status 404). *)
Theorem claimSession_succeeds_once (parsedConfig : QRAuthConfig)
  (sys : SessionSystem) (db : Database) (body : ClaimBody) (now : Z) :
  let t := text (body_sessionCreationToken body) in
  let outcome := run sys (claimSession body now) db in
  is_claim_ok (fst outcome) = true ->
  (exists r, findOne (by_sessionCreationToken t) (qrToken_table db) = Some r
             /\ sessionCreationToken r = Value t)
  /\ (forall r, In r (qrToken_table db) -> sessionCreationToken r = Value t ->
        In (claim_update r) (qrToken_table (snd outcome))
        /\ sessionCreationToken (claim_update r) = Null
        /\ sessionCreationTokenExpiresAt (claim_update r) = Null)
  /\ (forall r', In r' (qrToken_table (snd outcome)) ->
        sessionCreationToken r' <> Value t)
  /\ (forall later sys' now',
        never_mints t later = true ->
        fst (run sys' (claimSession body now')
               (snd (serve parsedConfig later (snd outcome))))
        = json_error "Invalid session creation token" 404).
Proof.
  intros t outcome Hok. subst t outcome.
  destruct (claimSession_ok_inv sys db body now Hok) as [Htruthy [[q [Hfind _]] Hdb]].
  rewrite Hdb. cbn [with_rows qrToken_table].
  set (t := text (body_sessionCreationToken body)) in *.
  split; [|split; [|split]].
  - exists q. split; [exact Hfind|].
    destruct (findOne_some_matches _ _ _ Hfind) as [_ Hm].
    unfold matches in Hm. cbn in Hm.
    destruct (sessionCreationToken q); try discriminate.
    apply String.eqb_eq in Hm. congruence.
  - intros r Hin Hsct. split; [|split; reflexivity].
    unfold update. apply in_map_iff. exists r. split; [|exact Hin].
    unfold matches. cbn. rewrite Hsct, String.eqb_refl. reflexivity.
  - intros r' Hin Hsct. apply no_match_after_claim in Hin.
    unfold matches in Hin. cbn in Hin. rewrite Hsct, String.eqb_refl in Hin.
    discriminate.
  - intros later sys' now' Hmint.
    rewrite (run_claimSession sys' _ body now' Htruthy).
    fold t. rewrite no_row_holds_findOne; [reflexivity|].
    apply no_row_holds_serve; [exact Hmint|].
    cbn [with_rows qrToken_table]. apply no_row_holds_after_claim.
Qed.

Lemma claimSession_succeeds_once_witness :
  fst (run willing (claimSession (claim_of "sct-1") 2000) (database_of [verified_row]))
  = claim_ok "user-1" alice "session-for-user-1" 604800000
  /\ fst (run willing (claimSession (claim_of "sct-1") 3000)
            (snd (serve default_config
                    [(willing, GET_status (Value "qr-1") 2500 2500)]
                    (snd (run willing (claimSession (claim_of "sct-1") 2000)
                            (database_of [verified_row]))))))
     = json_error "Invalid session creation token" 404.
Proof.
  split; [reflexivity|].
  destruct (claimSession_succeeds_once default_config willing
              (database_of [verified_row]) (claim_of "sct-1") 2000)
    as [_ [_ [_ Hlater]]].
  - reflexivity.
  - apply (Hlater [(willing, GET_status (Value "qr-1") 2500 2500)] willing 3000).
    reflexivity.
Defined.

(** C1, counterexample to at most one success per session-creation token:
    two claims of the token of one verified row are in flight together, and
    both handlers run their lookup, their expiry test, [createSession] and
    [setSessionCookie] before either runs its clearing update. Each finds the
    token on the row, and both answer with a success. *)
Lemma claimSession_race_two_successes :
  findOne (by_sessionCreationToken "sct-1")
    (qrToken_table (database_of [verified_row])) = Some verified_row
  /\ interleave willing [0; 1; 0; 1; 0; 1; 0; 1; 0; 1]%nat
       [ claimSession (claim_of "sct-1") 2000;
         claimSession (claim_of "sct-1") 2001 ]
       (database_of [verified_row])
     = ([ Return (claim_ok "user-1" alice "session-for-user-1" 604800000);
          Return (claim_ok "user-1" alice "session-for-user-1" 604800000) ],
        database_of [claim_update verified_row])
  /\ is_claim_ok (claim_ok "user-1" alice "session-for-user-1" 604800000) = true.
Proof. repeat split. Qed.

Lemma matches_by_sessionCreationToken (t : string) (r : QRToken) :
  matches (by_sessionCreationToken t) r = true <-> sessionCreationToken r = Value t.
Proof.
  unfold matches. cbn. destruct (sessionCreationToken r) as [| |s].
  - split; discriminate.
  - split; discriminate.
  - rewrite String.eqb_eq. split; congruence.
Qed.

Lemma claim_update_frame (r : QRToken) :
  id (claim_update r) = id r
  /\ token (claim_update r) = token r
  /\ createdAt (claim_update r) = createdAt r
  /\ expiresAt (claim_update r) = expiresAt r
  /\ isUsed (claim_update r) = isUsed r
  /\ userId (claim_update r) = userId r
  /\ verifiedAt (claim_update r) = verifiedAt r.
Proof. repeat split. Qed.

(** C9, as the handler tests the second expiry: for a verified row whose user
    exists, with the session system creating the session, a claim with the
    row's session-creation token succeeds while the clock is strictly before
    [sessionCreationTokenExpiresAt], and is answered with the expired error
    from the instant the clock reaches it. *)
Theorem claimSession_expiry_boundary (sys : SessionSystem) (db : Database)
  (body : ClaimBody) (now : Z) (r : QRToken) (usr : User) (s : Session) (e : Z) :
  truthy (body_sessionCreationToken body) = true ->
  findOne (by_sessionCreationToken (text (body_sessionCreationToken body)))
    (qrToken_table db) = Some r ->
  isUsed r = true ->
  truthy (userId r) = true ->
  sessionCreationTokenExpiresAt r = Value e ->
  findUser (userId r) (user_table db) = Some usr ->
  createSession sys (text (userId r)) = Created s ->
  setSessionCookie sys s usr = None ->
  let resp := fst (run sys (claimSession body now) db) in
  (now < e ->
     resp = claim_ok (text (userId r)) usr (session_token s) (session_expiresAt s))
  /\ (e <= now -> resp = json_error "Session creation token expired" 410).
Proof.
  intros Htruthy Hfind Hused Huid Hexp Husr Hcreate Hcookie resp. subst resp.
  rewrite (run_claimSession sys db body now Htruthy).
  rewrite Hfind, Hused, Huid, Hexp. cbn [negb orb new_Date date_le].
  split; intros Hnow.
  - apply Z.leb_gt in Hnow. rewrite Hnow, Husr, Hcreate, Hcookie. reflexivity.
  - apply Z.leb_le in Hnow. rewrite Hnow. reflexivity.
Qed.

Lemma claimSession_expiry_boundary_witness :
  fst (run willing (claimSession (claim_of "sct-1") 300999) (database_of [verified_row]))
  = claim_ok "user-1" alice "session-for-user-1" 604800000
  /\ fst (run willing (claimSession (claim_of "sct-1") 301001) (database_of [verified_row]))
     = json_error "Session creation token expired" 410.
Proof.
  pose proof (fun now =>
    claimSession_expiry_boundary willing (database_of [verified_row])
      (claim_of "sct-1") now verified_row alice
      {| session_token := "session-for-user-1"; session_expiresAt := 604800000 |}
      301000 eq_refl eq_refl eq_refl eq_refl eq_refl eq_refl eq_refl eq_refl)
    as Hboundary.
  cbv zeta in Hboundary. split.
  - apply (proj1 (Hboundary 300999)). lia.
  - apply (proj2 (Hboundary 301001)). lia.
Defined.

(** C9, counterexample to success at the boundary: the row is verified, its
    user exists, the session system is willing, the clock equals
    [sessionCreationTokenExpiresAt], and the claim is answered with the
    expired error; the row keeps its token. *)
Lemma claimSession_rejected_at_expiry_instant :
  findOne (by_sessionCreationToken "sct-1") (qrToken_table (database_of [verified_row]))
  = Some verified_row
  /\ isUsed verified_row = true
  /\ userId verified_row = Value "user-1"
  /\ findUser (Value "user-1") (user_table (database_of [verified_row])) = Some alice
  /\ sessionCreationTokenExpiresAt verified_row = Value 301000
  /\ 301000 <= 301000
  /\ run willing (claimSession (claim_of "sct-1") 301000) (database_of [verified_row])
     = (json_error "Session creation token expired" 410, database_of [verified_row])
  /\ is_claim_ok (json_error "Session creation token expired" 410) = false.
Proof.
  repeat split; try reflexivity.
Qed.

(** C10: a successful claim keeps the user table and every row of the
    [qrToken] table in place; a row holding the claimed token has only
    [sessionCreationToken] and [sessionCreationTokenExpiresAt] changed, both to
    null, every other row is untouched; a lookup by id that found a row before
    finds the same row after (with the two columns nulled if it held the
    token); and the claimed row is still there with [isUsed] true. *)
Theorem claimSession_frame (sys : SessionSystem) (db : Database)
  (body : ClaimBody) (now : Z) :
  let t := text (body_sessionCreationToken body) in
  let outcome := run sys (claimSession body now) db in
  let rows := qrToken_table db in
  let rows' := qrToken_table (snd outcome) in
  is_claim_ok (fst outcome) = true ->
  user_table (snd outcome) = user_table db
  /\ length rows' = length rows
  /\ (forall n r, nth_error rows n = Some r ->
        exists r',
          nth_error rows' n = Some r'
          /\ id r' = id r /\ token r' = token r
          /\ createdAt r' = createdAt r /\ expiresAt r' = expiresAt r
          /\ isUsed r' = isUsed r /\ userId r' = userId r
          /\ verifiedAt r' = verifiedAt r
          /\ (sessionCreationToken r = Value t ->
                sessionCreationToken r' = Null
                /\ sessionCreationTokenExpiresAt r' = Null)
          /\ (sessionCreationToken r <> Value t -> r' = r))
  /\ (forall i q, findOne (by_id i) rows = Some q ->
        exists q', findOne (by_id i) rows' = Some q'
                   /\ q' = (if matches (by_sessionCreationToken t) q
                            then claim_update q else q)
                   /\ id q' = id q /\ token q' = token q
                   /\ createdAt q' = createdAt q /\ expiresAt q' = expiresAt q
                   /\ isUsed q' = isUsed q /\ userId q' = userId q
                   /\ verifiedAt q' = verifiedAt q)
  /\ (exists r, findOne (by_sessionCreationToken t) rows = Some r
                /\ isUsed r = true
                /\ In (claim_update r) rows'
                /\ isUsed (claim_update r) = true).
Proof.
  intros t outcome rows rows' Hok. subst t outcome rows rows'.
  destruct (claimSession_ok_inv sys db body now Hok)
    as [_ [[q [Hfind [Hused _]]] Hdb]].
  rewrite Hdb. cbn [with_rows qrToken_table user_table].
  set (t := text (body_sessionCreationToken body)) in *.
  split; [reflexivity|]. split; [apply length_map|]. split; [|split].
  - intros n r Hn. unfold update. rewrite nth_error_map, Hn. cbn [option_map].
    destruct (matches (by_sessionCreationToken t) r) eqn:Hm.
    + exists (claim_update r). split; [reflexivity|].
      do 7 (split; [reflexivity|]). split.
      * intros _. split; reflexivity.
      * intros Hne. apply matches_by_sessionCreationToken in Hm. contradiction.
    + exists r. split; [reflexivity|].
      do 7 (split; [reflexivity|]). split.
      * intros Hsct. apply matches_by_sessionCreationToken in Hsct. congruence.
      * intros _. reflexivity.
  - intros i q0 Hq0. rewrite findOne_by_id_update by reflexivity.
    rewrite Hq0. cbn [option_map].
    destruct (matches (by_sessionCreationToken t) q0);
      eexists; (split; [reflexivity|]); repeat split.
  - exists q. split; [exact Hfind|]. split; [exact Hused|]. split; [|exact Hused].
    destruct (findOne_some_matches _ _ _ Hfind) as [Hin Hm].
    unfold update. apply in_map_iff. exists q. rewrite Hm. split; [reflexivity|exact Hin].
Qed.

Lemma claimSession_frame_witness :
  qrToken_table
    (snd (run willing (claimSession (claim_of "sct-1") 2000)
            (database_of [pending_row; verified_row])))
  = [pending_row; claim_update verified_row]
  /\ exists q',
       findOne (by_id "qr-1")
         (qrToken_table
            (snd (run willing (claimSession (claim_of "sct-1") 2000)
                    (database_of [verified_row]))))
       = Some q'
       /\ q' = claim_update verified_row.
Proof.
  split; [reflexivity|].
  destruct (claimSession_frame willing (database_of [verified_row])
              (claim_of "sct-1") 2000) as [_ [_ [_ [Hlookup _]]]].
  - reflexivity.
  - destruct (Hlookup "qr-1" verified_row) as [q' [Hq' [Heq _]]]; [reflexivity|].
    exists q'. split; [exact Hq'|exact Heq].
Defined.

(** ** The record invariant *)

Lemma table_ok_delete (w : Where) (rows : list QRToken) :
  table_ok rows = true -> table_ok (delete w rows) = true.
Proof.
  unfold table_ok, delete. rewrite !forallb_forall.
  intros Hall r Hin. apply filter_In in Hin. apply Hall, Hin.
Qed.

Lemma record_ok_verify_update (uid : string) (stamp : Z) (sct : string) (e : Z)
  (r : QRToken) :
  record_ok (verify_update uid stamp sct e r) = true.
Proof. reflexivity. Qed.

Lemma record_ok_claim_update (t : string) (r : QRToken) :
  record_ok r = true ->
  matches (by_sessionCreationToken t) r = true ->
  record_ok (claim_update r) = true /\ isUsed r = true.
Proof.
  intros Hok Hm. apply matches_by_sessionCreationToken in Hm.
  unfold record_ok in *. cbn [claim_update isUsed userId verifiedAt].
  destruct (isUsed r).
  - split; [exact Hok|reflexivity].
  - rewrite Hm in Hok. cbn in Hok. rewrite andb_false_r in Hok. discriminate.
Qed.

Lemma table_ok_effect (rows rows' : list QRToken) (req : Request) (resp : Response) :
  table_effect rows req resp rows' ->
  table_ok rows = true -> table_ok rows' = true.
Proof.
  intros Heff Hall. destruct Heff.
  - exact Hall.
  - apply table_ok_delete, Hall.
  - unfold table_ok, create in *. rewrite forallb_app, Hall. reflexivity.
  - unfold table_ok, update in *. rewrite forallb_forall in *.
    intros r Hin. apply in_map_iff in Hin. destruct Hin as [r0 [<- Hin]].
    destruct (matches _ r0); [reflexivity|apply Hall, Hin].
  - unfold table_ok, update in *. rewrite forallb_forall in *.
    intros r Hin. apply in_map_iff in Hin. destruct Hin as [r0 [<- Hin]].
    destruct (matches _ r0) eqn:Hm; [|apply Hall, Hin].
    apply (record_ok_claim_update _ r0 (Hall r0 Hin) Hm).
Qed.

(** A used row without a session-creation token is either a row that was
    already so, or the result of a successful claim on a row that held one. *)
Lemma cleared_only_by_claim (rows rows' : list QRToken) (req : Request)
  (resp : Response) (r : QRToken) :
  table_effect rows req resp rows' ->
  In r rows' -> isUsed r = true -> is_set (sessionCreationToken r) = false ->
  In r rows
  \/ (is_claim_ok resp = true
      /\ exists r0, In r0 rows /\ is_set (sessionCreationToken r0) = true
                    /\ r = claim_update r0).
Proof.
  intros Heff Hin Hused Hunset. destruct Heff.
  - left. exact Hin.
  - left. unfold delete in Hin. apply filter_In in Hin. apply Hin.
  - unfold create in Hin. apply in_app_or in Hin. destruct Hin as [Hin|[<-|[]]].
    + left. exact Hin.
    + discriminate.
  - unfold update in Hin. apply in_map_iff in Hin. destruct Hin as [r0 [<- Hin]].
    destruct (matches _ r0); [discriminate|left; exact Hin].
  - unfold update in Hin. apply in_map_iff in Hin. destruct Hin as [r0 [<- Hin]].
    destruct (matches _ r0) eqn:Hm; [|left; exact Hin].
    right. split; [assumption|]. exists r0. split; [exact Hin|]. split; [|reflexivity].
    apply matches_by_sessionCreationToken in Hm. rewrite Hm. reflexivity.
Qed.

(** C8: every request ([generateToken], [verifyToken], [pollStatus],
    [claimSession]) and every eviction keeps the record invariant on all rows:
    a row that is not used has no [userId], [verifiedAt] or
    [sessionCreationToken]; a used row has [userId] and [verifiedAt]. A
    successful [verifyToken] leaves the scanned row used and holding the drawn
    session-creation token, and afterwards only a successful [claimSession]
    turns a row into a used row without one. *)
Theorem record_invariant_preserved (parsedConfig : QRAuthConfig)
  (sys : SessionSystem) (req : Request) (db : Database) :
  table_ok (qrToken_table db) = true ->
  let outcome := run sys (endpoint parsedConfig req) db in
  let rows' := qrToken_table (snd outcome) in
  table_ok rows' = true
  /\ (forall w, table_ok (delete w (qrToken_table db)) = true)
  /\ (forall body session fresh now_check now_mint now_stamp,
        req = POST_verify body session fresh now_check now_mint now_stamp ->
        is_verify_ok (fst outcome) = true ->
        exists q, findOne (by_id (text (body_tokenId body))) rows' = Some q
                  /\ isUsed q = true
                  /\ sessionCreationToken q = Value fresh)
  /\ (forall r, In r rows' -> isUsed r = true ->
        is_set (sessionCreationToken r) = false ->
        In r (qrToken_table db)
        \/ (is_claim_ok (fst outcome) = true
            /\ exists r0, In r0 (qrToken_table db)
                          /\ is_set (sessionCreationToken r0) = true
                          /\ r = claim_update r0)).
Proof.
  intros Hok outcome rows'. subst outcome rows'.
  destruct (endpoint_effect parsedConfig sys req db) as [Heff _].
  split; [|split; [|split]].
  - exact (table_ok_effect _ _ _ _ Heff Hok).
  - intros w. apply table_ok_delete, Hok.
  - intros body session fresh now_check now_mint now_stamp -> Hverified.
    inversion Heff; try congruence.
    match goal with
    | Hrows : update _ _ _ = _ |- _ => cbn [endpoint]; rewrite <- Hrows
    end.
    match goal with
    | Hfind : findOne _ _ = Some _ |- _ =>
        rewrite findOne_by_id_update by reflexivity;
        rewrite Hfind;
        destruct (findOne_some_matches _ _ _ Hfind) as [_ Hm]
    end.
    cbn [option_map]. rewrite Hm.
    eexists. split; [reflexivity|]. split; reflexivity.
  - intros r. apply (cleared_only_by_claim _ _ _ _ r Heff).
Qed.

Lemma record_invariant_preserved_witness :
  table_ok
    (qrToken_table
       (snd (run willing
               (endpoint default_config
                  (POST_verify (scan "qr-1" "secret-1") (as_caller alice) "sct-1"
                     1000 1000 1000))
               (database_of [pending_row])))) = true.
Proof.
  destruct (record_invariant_preserved default_config willing
              (POST_verify (scan "qr-1" "secret-1") (as_caller alice) "sct-1"
                 1000 1000 1000)
              (database_of [pending_row])) as [Hkept _].
  - reflexivity.
  - exact Hkept.
Defined.

(** ** The two interpreters agree on a handler left alone *)

Lemma run_as_interleave {R} (sys : SessionSystem) (p : Async R) (db : Database) :
  exists turns,
    interleave sys (repeat 0%nat turns) [p] db
    = ([Return (fst (run sys p db))], snd (run sys p db)).
Proof.
  revert db.
  induction p as [r | data k IH | w k IH | uid k IH | w set k IH | w k IH
                 | uid k IH | s u k IH]; intros db.
  - exists 0%nat. reflexivity.
  - destruct (IH (with_rows db (create data (qrToken_table db)))) as [n Hn].
    exists (S n). exact Hn.
  - destruct (IH (findOne w (qrToken_table db)) db) as [n Hn].
    exists (S n). exact Hn.
  - destruct (IH (findUser uid (user_table db)) db) as [n Hn].
    exists (S n). exact Hn.
  - destruct (IH (with_rows db (update w set (qrToken_table db)))) as [n Hn].
    exists (S n). exact Hn.
  - destruct (IH (with_rows db (delete w (qrToken_table db)))) as [n Hn].
    exists (S n). exact Hn.
  - destruct (IH (createSession sys uid) db) as [n Hn].
    exists (S n). exact Hn.
  - destruct (IH (setSessionCookie sys s u) db) as [n Hn].
    exists (S n). exact Hn.
Qed.

(** ** Scans one after another, and scans that overlap *)

Lemma correct_scan_inv (tid tok : string) (deadline : Z) (req : Request) :
  correct_scan tid tok deadline req = true ->
  exists usr fresh now_check now_mint now_stamp,
    req = POST_verify (scan tid tok) (as_caller usr) fresh now_check now_mint now_stamp
    /\ now_check <= deadline.
Proof.
  destruct req as [| body session fresh now_check now_mint now_stamp | |];
    try discriminate.
  destruct session as [[[usr|]]|]; try discriminate.
  destruct body as [[| |i] [| |s]]; try discriminate.
  cbn. intros H. apply andb_prop in H. destruct H as [H Hlive].
  apply andb_prop in H. destruct H as [Hi Hs].
  apply String.eqb_eq in Hi. apply String.eqb_eq in Hs. apply Z.leb_le in Hlive.
  subst. exists usr, fresh, now_check, now_mint, now_stamp. split; [reflexivity|exact Hlive].
Qed.

(** Once the row is used, every further correct scan served on its own is
    refused as already used and changes nothing. *)
Lemma serve_scans_of_used_row (parsedConfig : QRAuthConfig) (tid tok : string)
  (r : QRToken) (later : list (SessionSystem * Request)) (db : Database) :
  tid <> EmptyString -> tok <> EmptyString ->
  findOne (by_id tid) (qrToken_table db) = Some r ->
  isUsed r = true -> token r = tok ->
  forallb (fun a => correct_scan tid tok (expiresAt r) (snd a)) later = true ->
  serve parsedConfig later db
  = (repeat (json_error "Token already used" 409) (length later), db).
Proof.
  intros Htid Htok Hfind Hused Hsecret.
  induction later as [|[sys req] later IH]; intros Hall; [reflexivity|].
  cbn [forallb snd] in Hall. apply andb_prop in Hall. destruct Hall as [Hreq Hlater].
  apply correct_scan_inv in Hreq.
  destruct Hreq as [usr [fresh [now_check [now_mint [now_stamp [-> Hlive]]]]]].
  cbn [serve endpoint].
  rewrite (run_verifyToken sys db tid tok usr) by assumption.
  rewrite Hfind, Hsecret, String.eqb_refl, Hused. cbn [negb].
  apply Z.ltb_ge in Hlive. rewrite Hlive.
  rewrite (IH Hlater). reflexivity.
Qed.

(** C6, for scans that do not overlap: when correct scans of a pending row
    by authenticated callers are served one after another, none arriving
    after the row's [expiresAt], the first succeeds and each of the others is
    answered "Token already used". *)
Theorem verifyToken_one_success_in_sequence (parsedConfig : QRAuthConfig)
  (db : Database) (tid tok : string) (r : QRToken)
  (first : SessionSystem * Request) (later : list (SessionSystem * Request)) :
  tid <> EmptyString -> tok <> EmptyString ->
  findOne (by_id tid) (qrToken_table db) = Some r ->
  isUsed r = false -> token r = tok ->
  forallb (fun a => correct_scan tid tok (expiresAt r) (snd a)) (first :: later) = true ->
  exists uid usr sct e,
    fst (serve parsedConfig (first :: later) db)
    = verify_ok uid usr sct e
      :: repeat (json_error "Token already used" 409) (length later).
Proof.
  intros Htid Htok Hfind Hpending Hsecret Hall.
  cbn [forallb] in Hall. apply andb_prop in Hall. destruct Hall as [Hfirst Hlater].
  destruct first as [sys req]. cbn [snd] in Hfirst.
  apply correct_scan_inv in Hfirst.
  destruct Hfirst as [usr [fresh [now_check [now_mint [now_stamp [-> Hlive]]]]]].
  cbn [serve endpoint].
  rewrite (run_verifyToken sys db tid tok usr) by assumption.
  rewrite Hfind, Hsecret, String.eqb_refl, Hpending. cbn [negb].
  apply Z.ltb_ge in Hlive. rewrite Hlive.
  set (bound := verify_update (user_id usr) now_stamp fresh (now_mint + 300000)).
  rewrite (serve_scans_of_used_row parsedConfig tid tok (bound r) later); try assumption.
  - exists (user_id usr), usr, fresh, (now_mint + 300000). reflexivity.
  - cbn [with_rows qrToken_table].
    rewrite findOne_by_id_update by reflexivity.
    rewrite Hfind. cbn [option_map].
    destruct (findOne_some_matches _ _ _ Hfind) as [_ Hm]. rewrite Hm. reflexivity.
  - reflexivity.
Qed.

Lemma verifyToken_one_success_in_sequence_witness :
  fst (serve default_config
         [ (willing, POST_verify (scan "qr-1" "secret-1") (as_caller alice) "sct-1" 1000 1000 1000);
           (willing, POST_verify (scan "qr-1" "secret-1") (as_caller bob) "sct-2" 1001 1001 1001);
           (willing, POST_verify (scan "qr-1" "secret-1") (as_caller bob) "sct-3" 1002 1002 1002) ]
         (database_of [pending_row]))
  = [ verify_ok "user-1" alice "sct-1" 301000;
      json_error "Token already used" 409;
      json_error "Token already used" 409 ].
Proof.
  destruct (verifyToken_one_success_in_sequence default_config
              (database_of [pending_row]) "qr-1" "secret-1" pending_row
              (willing, POST_verify (scan "qr-1" "secret-1") (as_caller alice) "sct-1" 1000 1000 1000)
              [ (willing, POST_verify (scan "qr-1" "secret-1") (as_caller bob) "sct-2" 1001 1001 1001);
                (willing, POST_verify (scan "qr-1" "secret-1") (as_caller bob) "sct-3" 1002 1002 1002) ])
    as [uid [usr [sct [e Hresps]]]].
  - discriminate.
  - discriminate.
  - reflexivity.
  - reflexivity.
  - reflexivity.
  - reflexivity.
  - reflexivity.
Defined.

(** Served to completion one after the other, the two scans of
    [racing_scans] give one success and one refusal. *)
Lemma racing_scans_in_turn :
  interleave willing [0; 0; 1; 1]%nat racing_scans (database_of [pending_row])
  = ([ Return (verify_ok "user-1" alice "sct-1" 301000);
       Return (json_error "Token already used" 409) ],
     database_of [verified_row]).
Proof. reflexivity. Qed.

(** C6, counterexample to exactly one success: both handlers look the row up
    before either writes. Each sees it pending, each writes, and both answer
    with a success; the row ends up bound to the second writer. *)
Lemma verifyToken_race_two_successes :
  interleave willing [0; 1; 0; 1]%nat racing_scans (database_of [pending_row])
  = ([ Return (verify_ok "user-1" alice "sct-1" 301000);
       Return (verify_ok "user-2" bob "sct-2" 301001) ],
     database_of [row_bound_to_bob]).
Proof. reflexivity. Qed.

(** * Further properties of the server *)

(** ** Requests that fail *)

Lemma verifyToken_error_frame (sys : SessionSystem) (db : Database)
  (body : VerifyBody) (session : option SessionContext) (fresh : string)
  (now_check now_mint now_stamp : Z) (msg : string) (status : Z) :
  fst (run sys (verifyToken body session fresh now_check now_mint now_stamp) db)
  = json_error msg status ->
  msg <> "Token expired" ->
  snd (run sys (verifyToken body session fresh now_check now_mint now_stamp) db) = db.
Proof.
  unfold verifyToken.
  destruct (negb (truthy (body_tokenId body)) || negb (truthy (body_token body)));
    [reflexivity|].
  destruct session as [[[usr|]]|]; try reflexivity.
  cbn [run].
  destruct (findOne _ _) as [q|]; [|reflexivity].
  destruct (negb (String.eqb (token q) (text (body_token body)))); [reflexivity|].
  destruct (expiresAt q <? now_check).
  - cbn. intros [= <- _] Hne. contradiction.
  - destruct (isUsed q); [reflexivity|]. cbn. discriminate.
Qed.

Lemma pollStatus_error_frame (sys : SessionSystem) (db : Database)
  (tokenId : optional string) (now_first now_second : Z) (msg : string) (status : Z) :
  fst (run sys (pollStatus tokenId now_first now_second) db) = json_error msg status ->
  msg <> "Token expired" ->
  snd (run sys (pollStatus tokenId now_first now_second) db) = db.
Proof.
  destruct (truthy tokenId) eqn:Htruthy.
  2:{ rewrite pollStatus_missing_id by assumption. reflexivity. }
  rewrite (run_pollStatus sys db tokenId) by assumption.
  destruct (findOne _ _) as [q|]; [|reflexivity]. cbv zeta.
  destruct (expiresAt q <? now_first).
  - cbn. intros [= <- _] Hne. contradiction.
  - destruct (isUsed q); [|reflexivity].
    destruct (findUser _ _); [|reflexivity].
    destruct (truthy (sessionCreationToken q) && _); reflexivity.
Qed.

Lemma claimSession_error_frame (sys : SessionSystem) (db : Database)
  (body : ClaimBody) (now : Z) (msg : string) (status : Z) :
  fst (run sys (claimSession body now) db) = json_error msg status ->
  snd (run sys (claimSession body now) db) = db.
Proof.
  destruct (truthy (body_sessionCreationToken body)) eqn:Htruthy.
  2:{ rewrite claimSession_missing_token by assumption. reflexivity. }
  rewrite (run_claimSession sys db body now Htruthy).
  destruct (findOne _ _) as [q|]; [|reflexivity].
  destruct (negb (isUsed q) || negb (truthy (userId q))); [reflexivity|].
  destruct (date_le _ _); [reflexivity|].
  destruct (findUser _ _); [|reflexivity].
  destruct (createSession _ _); try reflexivity.
  destruct (setSessionCookie _ _ _); [reflexivity|].
  cbn. discriminate.
Qed.

(** X1: a scan, a status poll or a claim that is answered with an error
    leaves the [qrToken] table and the user table exactly as they were, unless
    the error is "Token expired", the one error that evicts. This speaks of
    the two tables only: a session the session system created before a claim
    failed is kept by the session system, not by these tables. *)
Theorem error_leaves_tables_unchanged (sys : SessionSystem) (db : Database)
  (msg : string) (status : Z) :
  msg <> "Token expired" ->
  (forall body session fresh now_check now_mint now_stamp,
     let outcome :=
       run sys (verifyToken body session fresh now_check now_mint now_stamp) db in
     fst outcome = json_error msg status ->
     qrToken_table (snd outcome) = qrToken_table db
     /\ user_table (snd outcome) = user_table db)
  /\ (forall tokenId now_first now_second,
        let outcome := run sys (pollStatus tokenId now_first now_second) db in
        fst outcome = json_error msg status ->
        qrToken_table (snd outcome) = qrToken_table db
        /\ user_table (snd outcome) = user_table db)
  /\ (forall body now,
        let outcome := run sys (claimSession body now) db in
        fst outcome = json_error msg status ->
        qrToken_table (snd outcome) = qrToken_table db
        /\ user_table (snd outcome) = user_table db).
Proof.
  intros Hne. split; [|split].
  - intros body session fresh now_check now_mint now_stamp outcome Herr.
    subst outcome.
    rewrite (verifyToken_error_frame sys db body session fresh now_check now_mint
               now_stamp msg status Herr Hne).
    split; reflexivity.
  - intros tokenId now_first now_second outcome Herr. subst outcome.
    rewrite (pollStatus_error_frame sys db tokenId now_first now_second msg status
               Herr Hne).
    split; reflexivity.
  - intros body now outcome Herr. subst outcome.
    rewrite (claimSession_error_frame sys db body now msg status Herr).
    split; reflexivity.
Qed.

Lemma error_leaves_tables_unchanged_witness :
  qrToken_table
    (snd (run failing (claimSession (claim_of "sct-1") 2000)
            (database_of [verified_row])))
  = [verified_row]
  /\ qrToken_table
       (snd (run willing
               (verifyToken (scan "qr-1" "guess") (as_caller alice) "sct-1"
                  1000 1000 1000)
               (database_of [pending_row])))
     = [pending_row].
Proof.
  split.
  - destruct (error_leaves_tables_unchanged failing (database_of [verified_row])
                "Failed to create session: database unavailable" 500)
      as [_ [_ Hclaim]]; [discriminate|].
    apply (Hclaim (claim_of "sct-1") 2000). reflexivity.
  - destruct (error_leaves_tables_unchanged willing (database_of [pending_row])
                "Invalid token" 401) as [Hscan _]; [discriminate|].
    apply (Hscan (scan "qr-1" "guess") (as_caller alice) "sct-1" 1000 1000 1000).
    reflexivity.
Defined.

Lemma serve_app (parsedConfig : QRAuthConfig)
  (before after : list (SessionSystem * Request)) (db : Database) :
  serve parsedConfig (before ++ after) db
  = (fst (serve parsedConfig before db)
       ++ fst (serve parsedConfig after (snd (serve parsedConfig before db))),
     snd (serve parsedConfig after (snd (serve parsedConfig before db)))).
Proof.
  revert db. induction before as [|[sys req] before IH]; intros db.
  - cbn [app serve fst snd]. destruct (serve parsedConfig after db). reflexivity.
  - cbn [app serve].
    destruct (run sys (endpoint parsedConfig req) db) as [resp db1].
    rewrite (IH db1).
    destruct (serve parsedConfig before db1) as [resps db2]. reflexivity.
Qed.

Lemma wrong_scan_refused (sys : SessionSystem) (parsedConfig : QRAuthConfig)
  (db : Database) (tid tok : string) (r : QRToken) (req : Request) :
  findOne (by_id tid) (qrToken_table db) = Some r ->
  token r = tok ->
  wrong_scan tid tok req = true ->
  exists msg status,
    run sys (endpoint parsedConfig req) db = (json_error msg status, db)
    /\ (status = 400 \/ status = 401).
Proof.
  intros Hfind Hsecret Hwrong.
  destruct req as [| body session fresh now_check now_mint now_stamp | |];
    try discriminate.
  cbn [wrong_scan] in Hwrong. apply andb_prop in Hwrong. destruct Hwrong as [Hid Hne].
  cbn [endpoint]. unfold verifyToken.
  destruct (negb (truthy (body_tokenId body)) || negb (truthy (body_token body)))
    eqn:Hmissing.
  { eexists. eexists. split; [reflexivity|left; reflexivity]. }
  destruct session as [[[usr|]]|];
    try (eexists; eexists; split; [reflexivity|right; reflexivity]).
  apply orb_false_elim in Hmissing. destruct Hmissing as [_ Htok].
  apply negb_false_iff in Htok.
  destruct (body_tokenId body) as [| |i]; try discriminate.
  destruct (body_token body) as [| |s]; try discriminate.
  apply String.eqb_eq in Hid. subst i.
  cbn [text run]. rewrite Hfind, Hsecret.
  rewrite String.eqb_sym. apply negb_true_iff in Hne. rewrite Hne. cbn [negb].
  eexists. eexists. split; [reflexivity|right; reflexivity].
Qed.

Lemma serve_wrong_scans (parsedConfig : QRAuthConfig) (db : Database)
  (tid tok : string) (r : QRToken) (attempts : list (SessionSystem * Request)) :
  findOne (by_id tid) (qrToken_table db) = Some r ->
  token r = tok ->
  forallb (fun a => wrong_scan tid tok (snd a)) attempts = true ->
  snd (serve parsedConfig attempts db) = db
  /\ length (fst (serve parsedConfig attempts db)) = length attempts
  /\ Forall (fun resp => exists msg status,
               resp = json_error msg status /\ (status = 400 \/ status = 401))
       (fst (serve parsedConfig attempts db)).
Proof.
  intros Hfind Hsecret.
  induction attempts as [|[sys req] attempts IH]; intros Hall.
  - cbn. repeat split. constructor.
  - cbn [forallb snd] in Hall. apply andb_prop in Hall. destruct Hall as [Hreq Hrest].
    destruct (wrong_scan_refused sys parsedConfig db tid tok r req Hfind Hsecret Hreq)
      as [msg [status [Hrun Hstatus]]].
    cbn [serve]. rewrite Hrun.
    destruct (IH Hrest) as [Hdb [Hlen Hresps]].
    destruct (serve parsedConfig attempts db) as [resps db2]. cbn [fst snd] in *.
    split; [exact Hdb|]. split; [cbn [length]; congruence|].
    constructor; [|exact Hresps]. exists msg, status. split; [reflexivity|exact Hstatus].
Qed.

(** X2: scans that carry a wrong or missing secret never use the token up.
    However many of them are served against a pending row, each is refused
    with status 400 or 401, the database stays as it was, and a scan with the
    right secret arriving before [expiresAt] still succeeds. *)
Theorem wrong_secrets_do_not_block (parsedConfig : QRAuthConfig) (db : Database)
  (tid tok : string) (r : QRToken) (attempts : list (SessionSystem * Request))
  (sys : SessionSystem) (usr : User) (fresh : string)
  (now_check now_mint now_stamp : Z) :
  tid <> EmptyString -> tok <> EmptyString ->
  findOne (by_id tid) (qrToken_table db) = Some r ->
  isUsed r = false -> token r = tok -> now_check <= expiresAt r ->
  forallb (fun a => wrong_scan tid tok (snd a)) attempts = true ->
  let correct :=
    (sys, POST_verify (scan tid tok) (as_caller usr) fresh now_check now_mint now_stamp) in
  snd (serve parsedConfig attempts db) = db
  /\ Forall (fun resp => exists msg status,
               resp = json_error msg status /\ (status = 400 \/ status = 401))
       (fst (serve parsedConfig attempts db))
  /\ fst (serve parsedConfig (attempts ++ [correct]) db)
     = fst (serve parsedConfig attempts db)
         ++ [verify_ok (user_id usr) usr fresh (now_mint + 5 * 60 * 1000)].
Proof.
  intros Htid Htok Hfind Hpending Hsecret Hlive Hall correct. subst correct.
  destruct (serve_wrong_scans parsedConfig db tid tok r attempts Hfind Hsecret Hall)
    as [Hdb [_ Hresps]].
  split; [exact Hdb|]. split; [exact Hresps|].
  rewrite serve_app. cbn [fst]. rewrite Hdb. f_equal.
  cbn [serve endpoint].
  rewrite (run_verifyToken sys db tid tok usr) by assumption.
  rewrite Hfind, Hsecret, String.eqb_refl, Hpending. cbn [negb].
  apply Z.ltb_ge in Hlive. rewrite Hlive. reflexivity.
Qed.

Lemma wrong_secrets_do_not_block_witness :
  fst (serve default_config
         [ (willing, POST_verify (scan "qr-1" "guess") (as_caller bob) "sct-9" 500 500 500);
           (willing, POST_verify (scan "qr-1" "secret-1") (as_caller alice) "sct-1" 1000 1000 1000) ]
         (database_of [pending_row]))
  = [ json_error "Invalid token" 401; verify_ok "user-1" alice "sct-1" 301000 ].
Proof.
  destruct (wrong_secrets_do_not_block default_config (database_of [pending_row])
              "qr-1" "secret-1" pending_row
              [ (willing, POST_verify (scan "qr-1" "guess") (as_caller bob) "sct-9" 500 500 500) ]
              willing alice "sct-1" 1000 1000 1000)
    as [_ [_ Hresps]].
  - discriminate.
  - discriminate.
  - reflexivity.
  - reflexivity.
  - reflexivity.
  - simpl. lia.
  - reflexivity.
  - exact Hresps.
Defined.

(** ** Claims *)

(** X3: a claim that fails because the session system could not create the
    session (or set its cookie) is answered with status 500 and leaves the
    session-creation token on the row, so the same claim made again before
    the token expires, once the session system works, succeeds. *)
Theorem claimSession_retry_after_session_failure (parsedConfig : QRAuthConfig)
  (sys sys' : SessionSystem) (db : Database) (body : ClaimBody) (now now' : Z)
  (r : QRToken) (usr : User) (s : Session) (e : Z) :
  truthy (body_sessionCreationToken body) = true ->
  findOne (by_sessionCreationToken (text (body_sessionCreationToken body)))
    (qrToken_table db) = Some r ->
  isUsed r = true ->
  truthy (userId r) = true ->
  sessionCreationTokenExpiresAt r = Value e ->
  findUser (userId r) (user_table db) = Some usr ->
  session_ready sys (text (userId r)) usr = None ->
  session_ready sys' (text (userId r)) usr = Some s ->
  now < e -> now' < e ->
  exists msg,
    fst (serve parsedConfig [(sys, POST_claim body now); (sys', POST_claim body now')] db)
    = [ json_error msg 500;
        claim_ok (text (userId r)) usr (session_token s) (session_expiresAt s) ].
Proof.
  intros Htruthy Hfind Hused Huid Hexp Husr Hfail Hready Hnow Hnow'.
  assert (Hfirst : exists msg,
             run sys (claimSession body now) db = (json_error msg 500, db)).
  { rewrite (run_claimSession sys db body now Htruthy).
    rewrite Hfind, Hused, Huid, Hexp. cbn [negb orb new_Date date_le].
    apply Z.leb_gt in Hnow. rewrite Hnow, Husr.
    unfold session_ready in Hfail.
    destruct (createSession sys _) as [s0| |m].
    - destruct (setSessionCookie sys s0 usr) as [m|]; [|discriminate].
      eexists. reflexivity.
    - eexists. reflexivity.
    - eexists. reflexivity. }
  destruct Hfirst as [msg Hfirst]. exists msg.
  cbn [serve endpoint]. rewrite Hfirst.
  rewrite (run_claimSession sys' db body now' Htruthy).
  rewrite Hfind, Hused, Huid, Hexp. cbn [negb orb new_Date date_le].
  apply Z.leb_gt in Hnow'. rewrite Hnow', Husr.
  unfold session_ready in Hready.
  destruct (createSession sys' _) as [s0| |m]; try discriminate.
  destruct (setSessionCookie sys' s0 usr); [discriminate|].
  injection Hready as ->. reflexivity.
Qed.

Lemma claimSession_retry_after_session_failure_witness :
  exists msg,
    fst (serve default_config
           [ (failing, POST_claim (claim_of "sct-1") 2000);
             (willing, POST_claim (claim_of "sct-1") 3000) ]
           (database_of [verified_row]))
    = [ json_error msg 500;
        claim_ok "user-1" alice "session-for-user-1" 604800000 ].
Proof.
  apply (claimSession_retry_after_session_failure default_config failing willing
           (database_of [verified_row]) (claim_of "sct-1") 2000 3000
           verified_row alice
           {| session_token := "session-for-user-1"; session_expiresAt := 604800000 |}
           301000 eq_refl eq_refl eq_refl eq_refl eq_refl eq_refl eq_refl eq_refl);
    lia.
Defined.

Lemma pollStatus_disclosed_row (sys : SessionSystem) (db : Database)
  (tokenId : optional string) (now_first now_second : Z) (t : string) :
  disclosed (fst (run sys (pollStatus tokenId now_first now_second) db)) = Some t ->
  exists r, In r (qrToken_table db) /\ sessionCreationToken r = Value t.
Proof.
  destruct (truthy tokenId) eqn:Htruthy.
  2:{ rewrite pollStatus_missing_id by assumption. discriminate. }
  rewrite (run_pollStatus sys db tokenId) by assumption.
  destruct (findOne _ _) as [q|] eqn:Hfind; [|discriminate]. cbv zeta.
  destruct (expiresAt q <? now_first); [discriminate|].
  destruct (isUsed q); [|discriminate].
  destruct (findUser _ _); [|discriminate].
  destruct (truthy (sessionCreationToken q)) eqn:Hsct; [|discriminate].
  destruct (date_gt _ _); [|discriminate].
  cbn. intros [= <-]. exists q. split.
  - apply (findOne_some_matches _ _ _ Hfind).
  - apply truthy_text, Hsct.
Qed.

(** X4: once a session-creation token has been claimed, the status endpoint
    never hands it out again: whatever requests are served afterwards (none
    of them drawing the same token again), no status answer carries it, and a
    poll of the claimed row before its [expiresAt] answers [completed] without
    any token. *)
Theorem claimed_token_never_disclosed (parsedConfig : QRAuthConfig)
  (sys : SessionSystem) (db : Database) (body : ClaimBody) (now : Z) :
  let t := text (body_sessionCreationToken body) in
  let db' := snd (run sys (claimSession body now) db) in
  is_claim_ok (fst (run sys (claimSession body now) db)) = true ->
  (forall later sys' tokenId now_first now_second,
     never_mints t later = true ->
     disclosed (fst (run sys' (pollStatus tokenId now_first now_second)
                       (snd (serve parsedConfig later db'))))
     <> Some t)
  /\ (forall sys' tid q now_first now_second,
        tid <> EmptyString ->
        findOne (by_id tid) (qrToken_table db) = Some q ->
        sessionCreationToken q = Value t ->
        isUsed q = true ->
        now_first <= expiresAt q ->
        fst (run sys' (pollStatus (Value tid) now_first now_second) db')
        = status_ok completed (userId q) None None
            (iso_or_null (verifiedAt q)) (expiresAt q)).
Proof.
  intros t db' Hok. subst t db'.
  destruct (claimSession_ok_inv sys db body now Hok) as [_ [_ Hdb]].
  rewrite Hdb. set (t := text (body_sessionCreationToken body)) in *.
  split.
  - intros later sys' tokenId now_first now_second Hmint Hdisc.
    apply pollStatus_disclosed_row in Hdisc. destruct Hdisc as [r [Hin Hsct]].
    assert (Hnone : no_row_holds t
                      (qrToken_table
                         (snd (serve parsedConfig later
                                 (with_rows db
                                    (update (by_sessionCreationToken t) claim_update
                                       (qrToken_table db)))))) = true).
    { apply no_row_holds_serve; [exact Hmint|].
      cbn [with_rows qrToken_table]. apply no_row_holds_after_claim. }
    unfold no_row_holds in Hnone. rewrite forallb_forall in Hnone.
    specialize (Hnone r Hin). apply negb_true_iff in Hnone.
    apply matches_by_sessionCreationToken in Hsct. congruence.
  - intros sys' tid q now_first now_second Htid Hfind Hsct Hused Hlive.
    rewrite (run_pollStatus sys' _ (Value tid)) by (apply truthy_Value_true, Htid).
    cbn [with_rows qrToken_table user_table text].
    rewrite findOne_by_id_update by reflexivity.
    rewrite Hfind. cbn [option_map].
    apply matches_by_sessionCreationToken in Hsct. rewrite Hsct.
    cbn [claim_update expiresAt isUsed userId verifiedAt sessionCreationToken
         sessionCreationTokenExpiresAt].
    apply Z.ltb_ge in Hlive. rewrite Hlive, Hused.
    cbn [truthy andb]. destruct (findUser _ _); reflexivity.
Qed.

Lemma claimed_token_never_disclosed_witness :
  disclosed
    (fst (run willing (pollStatus (Value "qr-1") 2500 2500)
            (snd (serve default_config []
                    (snd (run willing (claimSession (claim_of "sct-1") 2000)
                            (database_of [verified_row])))))))
  <> Some "sct-1".
Proof.
  destruct (claimed_token_never_disclosed default_config willing
              (database_of [verified_row]) (claim_of "sct-1") 2000) as [Hnever _].
  - reflexivity.
  - apply (Hnever [] willing (Value "qr-1") 2500 2500). reflexivity.
Defined.

(** ** Eviction *)

Lemma no_row_with_id_findOne (i : string) (rows : list QRToken) :
  no_row_with_id i rows = true <-> findOne (by_id i) rows = None.
Proof.
  unfold no_row_with_id, findOne.
  induction rows as [|r rows IH]; cbn [forallb find].
  - split; reflexivity.
  - destruct (matches (by_id i) r); cbn [negb andb].
    + split; discriminate.
    + exact IH.
Qed.

Lemma no_row_with_id_delete (i : string) (rows : list QRToken) :
  no_row_with_id i (delete (by_id i) rows) = true.
Proof. apply no_row_with_id_findOne, findOne_delete. Qed.

Lemma no_row_with_id_effect (i : string) (rows rows' : list QRToken)
  (req : Request) (resp : Response) :
  table_effect rows req resp rows' ->
  generates i req = false ->
  no_row_with_id i rows = true ->
  no_row_with_id i rows' = true.
Proof.
  unfold no_row_with_id. intros Heff Hgen Hall.
  rewrite forallb_forall in Hall.
  destruct Heff; apply forallb_forall; intros r Hin.
  - apply Hall, Hin.
  - unfold delete in Hin. apply filter_In in Hin. apply Hall, Hin.
  - unfold create in Hin. apply in_app_or in Hin. destruct Hin as [Hin|[<-|[]]].
    + apply Hall, Hin.
    + cbn in Hgen |- *. rewrite Hgen. reflexivity.
  - unfold update in Hin. apply in_map_iff in Hin. destruct Hin as [r0 [<- Hin]].
    rewrite matches_by_id_update by reflexivity. apply Hall, Hin.
  - unfold update in Hin. apply in_map_iff in Hin. destruct Hin as [r0 [<- Hin]].
    rewrite matches_by_id_update by reflexivity. apply Hall, Hin.
Qed.

Lemma no_row_with_id_serve (parsedConfig : QRAuthConfig) (i : string)
  (arrivals : list (SessionSystem * Request)) (db : Database) :
  never_generates i arrivals = true ->
  no_row_with_id i (qrToken_table db) = true ->
  no_row_with_id i (qrToken_table (snd (serve parsedConfig arrivals db))) = true.
Proof.
  revert db. induction arrivals as [|[sys req] later IH]; intros db Hgen Hall.
  - exact Hall.
  - cbn [never_generates forallb snd] in Hgen. apply andb_prop in Hgen.
    destruct Hgen as [Hreq Hlater]. apply negb_true_iff in Hreq.
    cbn [serve].
    destruct (run sys (endpoint parsedConfig req) db) as [resp db1] eqn:Hrun.
    specialize (IH db1 Hlater).
    destruct (serve parsedConfig later db1) as [resps db2]. cbn [snd] in *.
    apply IH.
    destruct (endpoint_effect parsedConfig sys req db) as [Heff _].
    rewrite Hrun in Heff. cbn [fst snd] in Heff.
    exact (no_row_with_id_effect i _ _ req resp Heff Hreq Hall).
Qed.

(** A "Token expired" answer comes from a scan or a poll naming a non-empty
    id, and it has deleted every row with that id. *)
Lemma token_expired_evicts (parsedConfig : QRAuthConfig) (sys : SessionSystem)
  (req : Request) (db : Database) (status : Z) :
  fst (run sys (endpoint parsedConfig req) db) = json_error "Token expired" status ->
  exists i,
    requested_id req = Some i /\ i <> EmptyString
    /\ qrToken_table (snd (run sys (endpoint parsedConfig req) db))
       = delete (by_id i) (qrToken_table db).
Proof.
  destruct req as [| body session fresh now_check now_mint now_stamp
                   | tokenId now_first now_second | body now]; cbn [endpoint requested_id].
  - cbn. discriminate.
  - unfold verifyToken.
    destruct (truthy (body_tokenId body)) eqn:Htid; [|cbn; discriminate].
    destruct (truthy (body_token body)); [|cbn; discriminate].
    cbn [negb orb].
    destruct session as [[[usr|]]|]; try (cbn; discriminate).
    cbn [run].
    destruct (findOne _ _) as [q|]; [|cbn; discriminate].
    destruct (negb (String.eqb (token q) (text (body_token body))));
      [cbn; discriminate|].
    destruct (expiresAt q <? now_check).
    + intros _. exists (text (body_tokenId body)). split; [reflexivity|].
      split; [|reflexivity].
      rewrite (truthy_text _ Htid) in Htid. apply truthy_Value in Htid. exact Htid.
    + destruct (isUsed q); cbn; discriminate.
  - destruct (truthy tokenId) eqn:Htid.
    2:{ rewrite pollStatus_missing_id by assumption. cbn. discriminate. }
    rewrite (run_pollStatus sys db tokenId) by assumption.
    destruct (findOne _ _) as [q|]; [|cbn; discriminate]. cbv zeta.
    destruct (expiresAt q <? now_first).
    + intros _. exists (text tokenId). split; [reflexivity|].
      split; [|reflexivity].
      rewrite (truthy_text _ Htid) in Htid. apply truthy_Value in Htid. exact Htid.
    + destruct (isUsed q); [|cbn; discriminate].
      destruct (findUser _ _); [|cbn; discriminate].
      destruct (truthy (sessionCreationToken q) && _); cbn; discriminate.
  - destruct (truthy (body_sessionCreationToken body)) eqn:Htruthy.
    2:{ rewrite claimSession_missing_token by assumption. cbn. discriminate. }
    rewrite (run_claimSession sys db body now Htruthy).
    destruct (findOne _ _) as [q|]; [|cbn; discriminate].
    destruct (negb (isUsed q) || negb (truthy (userId q))); [cbn; discriminate|].
    destruct (date_le _ _); [cbn; discriminate|].
    destruct (findUser _ _); [|cbn; discriminate].
    destruct (createSession _ _) as [s0| |[m|]]; try (cbn; discriminate).
    destruct (setSessionCookie _ _ _) as [[m|]|]; cbn; discriminate.
Qed.

(** X5: a token answered "Token expired" is gone for good. The scan or poll
    that gave the answer deleted its rows, and whatever requests are served
    afterwards (no [generateToken] drawing the same id again), every status
    poll and every scan naming that id, even with the right secret, is
    answered "Token not found". *)
Theorem expired_token_stays_gone (parsedConfig : QRAuthConfig)
  (sys : SessionSystem) (req : Request) (db : Database) (i : string) :
  fst (run sys (endpoint parsedConfig req) db) = json_error "Token expired" 410 ->
  requested_id req = Some i ->
  forall later, never_generates i later = true ->
    let db' := snd (serve parsedConfig later
                      (snd (run sys (endpoint parsedConfig req) db))) in
    (forall sys' now_first now_second,
       fst (run sys' (pollStatus (Value i) now_first now_second) db')
       = json_error "Token not found" 404)
    /\ (forall sys' tok usr fresh now_check now_mint now_stamp,
          tok <> EmptyString ->
          fst (run sys' (verifyToken (scan i tok) (as_caller usr) fresh
                           now_check now_mint now_stamp) db')
          = json_error "Token not found" 404).
Proof.
  intros Hresp Hid later Hgen db'. subst db'.
  destruct (token_expired_evicts parsedConfig sys req db 410 Hresp)
    as [i0 [Hid0 [Hne Hrows]]].
  assert (i0 = i) by congruence. subst i0.
  assert (Hgone : findOne (by_id i)
                    (qrToken_table
                       (snd (serve parsedConfig later
                               (snd (run sys (endpoint parsedConfig req) db)))))
                  = None).
  { apply no_row_with_id_findOne, no_row_with_id_serve; [exact Hgen|].
    rewrite Hrows. apply no_row_with_id_delete. }
  split.
  - intros sys' now_first now_second.
    rewrite (run_pollStatus sys' _ (Value i)) by (apply truthy_Value_true, Hne).
    cbn [text]. rewrite Hgone. reflexivity.
  - intros sys' tok usr fresh now_check now_mint now_stamp Htok.
    rewrite (run_verifyToken sys' _ i tok usr) by assumption.
    rewrite Hgone. reflexivity.
Qed.

Lemma expired_token_stays_gone_witness :
  fst (run willing
         (verifyToken (scan "qr-1" "secret-1") (as_caller alice) "sct-1"
            500000 500000 500000)
         (snd (serve default_config []
                 (snd (run willing
                         (endpoint default_config (GET_status (Value "qr-1") 400000 400000))
                         (database_of [pending_row]))))))
  = json_error "Token not found" 404.
Proof.
  destruct (expired_token_stays_gone default_config willing
              (GET_status (Value "qr-1") 400000 400000)
              (database_of [pending_row]) "qr-1" eq_refl eq_refl [] eq_refl)
    as [_ Hscan].
  apply Hscan. discriminate.
Defined.

(** ** What no request changes *)

Lemma effect_precursor (rows rows' : list QRToken) (req : Request)
  (resp : Response) (r' : QRToken) :
  table_effect rows req resp rows' ->
  In r' rows' ->
  (exists r, In r rows
             /\ id r' = id r /\ token r' = token r
             /\ createdAt r' = createdAt r /\ expiresAt r' = expiresAt r
             /\ (isUsed r = true -> isUsed r' = true))
  \/ (exists tokenId token now baseURL, req = POST_generate tokenId token now baseURL).
Proof.
  intros Heff Hin. destruct Heff.
  - left. exists r'. repeat split; auto.
  - left. exists r'. unfold delete in Hin. apply filter_In in Hin.
    repeat split; auto. apply Hin.
  - right. eauto.
  - left. unfold update in Hin. apply in_map_iff in Hin.
    destruct Hin as [r0 [<- Hin]]. exists r0.
    destruct (matches _ r0); repeat split; auto.
  - left. unfold update in Hin. apply in_map_iff in Hin.
    destruct Hin as [r0 [<- Hin]]. exists r0.
    destruct (matches _ r0); repeat split; auto.
Qed.

(** X6: a token's id, secret, creation time and first expiry are fixed at
    generation, and verification is never undone. After any request, every
    row of the table is either the row that request generated, or comes from
    a row that was there before with the same [id], [token], [createdAt] and
    [expiresAt], and is used if that row was. *)
Theorem row_provenance (parsedConfig : QRAuthConfig) (sys : SessionSystem)
  (req : Request) (db : Database) (r' : QRToken) :
  In r' (qrToken_table (snd (run sys (endpoint parsedConfig req) db))) ->
  (exists r, In r (qrToken_table db)
             /\ id r' = id r /\ token r' = token r
             /\ createdAt r' = createdAt r /\ expiresAt r' = expiresAt r
             /\ (isUsed r = true -> isUsed r' = true))
  \/ (exists tokenId token now baseURL,
        req = POST_generate tokenId token now baseURL
        /\ r' = generated_row parsedConfig tokenId token now).
Proof.
  intros Hin.
  destruct req as [tokenId token now baseURL | | |] eqn:Hreq.
  - cbn in Hin. unfold create in Hin. apply in_app_or in Hin.
    destruct Hin as [Hin|[<-|[]]].
    + left. exists r'. repeat split; auto.
    + right. exists tokenId, token, now, baseURL. split; reflexivity.
  - destruct (endpoint_effect parsedConfig sys req db) as [Heff _]. subst req.
    destruct (effect_precursor _ _ _ _ r' Heff Hin) as [Hpre|[? [? [? [? ?]]]]];
      [left; exact Hpre|discriminate].
  - destruct (endpoint_effect parsedConfig sys req db) as [Heff _]. subst req.
    destruct (effect_precursor _ _ _ _ r' Heff Hin) as [Hpre|[? [? [? [? ?]]]]];
      [left; exact Hpre|discriminate].
  - destruct (endpoint_effect parsedConfig sys req db) as [Heff _]. subst req.
    destruct (effect_precursor _ _ _ _ r' Heff Hin) as [Hpre|[? [? [? [? ?]]]]];
      [left; exact Hpre|discriminate].
Qed.

Lemma row_provenance_witness :
  exists r, In r [pending_row]
            /\ id verified_row = id r /\ token verified_row = token r
            /\ createdAt verified_row = createdAt r
            /\ expiresAt verified_row = expiresAt r
            /\ (isUsed r = true -> isUsed verified_row = true).
Proof.
  destruct (row_provenance default_config willing
              (POST_verify (scan "qr-1" "secret-1") (as_caller alice) "sct-1"
                 1000 1000 1000)
              (database_of [pending_row]) verified_row) as [Hpre|Hgen].
  - left. reflexivity.
  - exact Hpre.
  - destruct Hgen as [? [? [? [? [Hgen _]]]]]. discriminate Hgen.
Defined.

(** ** Unique ids *)

Lemma map_id_update (w : Where) (set : QRToken -> QRToken) (rows : list QRToken) :
  (forall q, id (set q) = id q) ->
  map id (update w set rows) = map id rows.
Proof.
  intros Hid. unfold update. rewrite map_map. apply map_ext.
  intros r. destruct (matches w r); [apply Hid|reflexivity].
Qed.

Lemma NoDup_map_id_delete (w : Where) (rows : list QRToken) :
  NoDup (map id rows) -> NoDup (map id (delete w rows)).
Proof.
  unfold delete. induction rows as [|r rows IH]; cbn [map filter]; intros Hnd.
  - constructor.
  - inversion Hnd as [|? ? Hnotin Hrest]; subst.
    destruct (negb (matches w r)); [|apply IH, Hrest].
    cbn [map]. constructor; [|apply IH, Hrest].
    intros Hin. apply Hnotin. apply in_map_iff in Hin.
    destruct Hin as [q [Hq Hin]]. apply filter_In in Hin.
    apply in_map_iff. exists q. split; [exact Hq|apply Hin].
Qed.

Lemma unknown_id_not_in (i : string) (rows : list QRToken) :
  findOne (by_id i) rows = None -> ~ In i (map id rows).
Proof.
  intros Hnone Hin. apply in_map_iff in Hin. destruct Hin as [r [Hid Hin]].
  pose proof (findOne_none_matches _ _ Hnone r Hin) as Hm.
  unfold matches in Hm. cbn in Hm. rewrite Hid, String.eqb_refl in Hm. discriminate.
Qed.

Lemma same_id_same_row (rows : list QRToken) (r q : QRToken) :
  NoDup (map id rows) -> In r rows -> In q rows -> id r = id q -> r = q.
Proof.
  induction rows as [|x rows IH]; cbn [map]; intros Hnd Hr Hq Hid; [destruct Hr|].
  inversion Hnd as [|? ? Hnotin Hrest]; subst.
  destruct Hr as [<-|Hr], Hq as [<-|Hq].
  - reflexivity.
  - exfalso. apply Hnotin. rewrite Hid. apply in_map, Hq.
  - exfalso. apply Hnotin. rewrite <- Hid. apply in_map, Hr.
  - apply IH; assumption.
Qed.

(** X7: ids stay unique. If no two rows share an id, and a [generateToken]
    request draws an id that no row has yet, then after the request no two
    rows share an id. *)
Theorem unique_ids_preserved (parsedConfig : QRAuthConfig) (sys : SessionSystem)
  (req : Request) (db : Database) :
  NoDup (map id (qrToken_table db)) ->
  (forall i, generates i req = true -> findOne (by_id i) (qrToken_table db) = None) ->
  NoDup (map id (qrToken_table (snd (run sys (endpoint parsedConfig req) db)))).
Proof.
  intros Hnd Hfresh.
  destruct (endpoint_effect parsedConfig sys req db) as [Heff _].
  destruct Heff.
  - exact Hnd.
  - apply NoDup_map_id_delete, Hnd.
  - unfold create. rewrite map_app. cbn [map id].
    apply NoDup_app.
    + exact Hnd.
    + constructor; [intros []|constructor].
    + intros i Hin [<-|[]]. revert Hin. apply unknown_id_not_in, Hfresh.
      cbn. apply String.eqb_refl.
  - rewrite map_id_update by reflexivity. exact Hnd.
  - rewrite map_id_update by reflexivity. exact Hnd.
Qed.

Lemma unique_ids_preserved_witness :
  NoDup
    (map id
       (qrToken_table
          (snd (run willing
                  (endpoint default_config
                     (POST_generate "qr-3" "secret-3" 5000 "https://example.com"))
                  (database_of [pending_row; long_lived_verified_row]))))).
Proof.
  apply (unique_ids_preserved default_config willing
           (POST_generate "qr-3" "secret-3" 5000 "https://example.com")
           (database_of [pending_row; long_lived_verified_row])).
  - cbn. repeat constructor; cbn; intuition discriminate.
  - intros i Hgen. unfold generates in Hgen. apply String.eqb_eq in Hgen.
    subst i. reflexivity.
Defined.

(** X8: with unique ids, a verified row keeps its binding. If a used row is
    in the table before a request (a [generateToken] drawing an unused id),
    then any row with its id after the request is still used, with the same
    [userId] and [verifiedAt], and its session-creation token is either
    unchanged or cleared to null. *)
Theorem binding_is_stable (parsedConfig : QRAuthConfig) (sys : SessionSystem)
  (req : Request) (db : Database) (r r' : QRToken) :
  NoDup (map id (qrToken_table db)) ->
  (forall i, generates i req = true -> findOne (by_id i) (qrToken_table db) = None) ->
  In r (qrToken_table db) -> isUsed r = true ->
  In r' (qrToken_table (snd (run sys (endpoint parsedConfig req) db))) ->
  id r' = id r ->
  isUsed r' = true
  /\ userId r' = userId r
  /\ verifiedAt r' = verifiedAt r
  /\ (sessionCreationToken r' = sessionCreationToken r
      \/ sessionCreationToken r' = Null).
Proof.
  intros Hnd Hfresh Hr Hused Hr' Hid.
  destruct (endpoint_effect parsedConfig sys req db) as [Heff _].
  destruct Heff.
  - rewrite (same_id_same_row _ r' r Hnd Hr' Hr Hid). auto.
  - unfold delete in Hr'. apply filter_In in Hr'. destruct Hr' as [Hr' _].
    rewrite (same_id_same_row _ r' r Hnd Hr' Hr Hid). auto.
  - unfold create in Hr'. apply in_app_or in Hr'. destruct Hr' as [Hr'|[<-|[]]].
    + rewrite (same_id_same_row _ r' r Hnd Hr' Hr Hid). auto.
    + exfalso. cbn [id] in Hid.
      apply (unknown_id_not_in tokenId (qrToken_table db)).
      * apply Hfresh. cbn. apply String.eqb_refl.
      * rewrite Hid. apply in_map, Hr.
  - unfold update in Hr'. apply in_map_iff in Hr'. destruct Hr' as [r0 [<- Hr0]].
    assert (r0 = r).
    { apply (same_id_same_row _ r0 r Hnd Hr0 Hr).
      rewrite <- Hid. destruct (matches _ r0); reflexivity. }
    subst r0.
    destruct (matches (by_id (text (body_tokenId body))) r) eqn:Hm; [|auto].
    exfalso.
    match goal with
    | Hfind : findOne _ _ = Some ?q, Hpending : isUsed ?q = false |- _ =>
        destruct (findOne_some_matches _ _ _ Hfind) as [Hq Hmq];
        assert (q = r) by
          (apply (same_id_same_row _ q r Hnd Hq Hr);
           unfold matches in Hm, Hmq; cbn in Hm, Hmq;
           apply String.eqb_eq in Hm; apply String.eqb_eq in Hmq; congruence);
        congruence
    end.
  - unfold update in Hr'. apply in_map_iff in Hr'. destruct Hr' as [r0 [<- Hr0]].
    assert (r0 = r).
    { apply (same_id_same_row _ r0 r Hnd Hr0 Hr).
      rewrite <- Hid. destruct (matches _ r0); reflexivity. }
    subst r0.
    destruct (matches _ r); cbn; auto.
Qed.

Lemma binding_is_stable_witness :
  isUsed (claim_update verified_row) = true
  /\ userId (claim_update verified_row) = userId verified_row
  /\ verifiedAt (claim_update verified_row) = verifiedAt verified_row
  /\ (sessionCreationToken (claim_update verified_row) = sessionCreationToken verified_row
      \/ sessionCreationToken (claim_update verified_row) = Null).
Proof.
  apply (binding_is_stable default_config willing
           (POST_claim (claim_of "sct-1") 2000)
           (database_of [verified_row]) verified_row (claim_update verified_row)).
  - cbn. repeat constructor. intros [].
  - intros i Hgen. discriminate Hgen.
  - left. reflexivity.
  - reflexivity.
  - left. reflexivity.
  - reflexivity.
Defined.

(** ** The whole exchange *)

Lemma findOne_create (w : Where) (data : QRToken) (rows : list QRToken) :
  findOne w (create data rows)
  = match findOne w rows with
    | Some r => Some r
    | None => if matches w data then Some data else None
    end.
Proof.
  unfold findOne, create. induction rows as [|r rows IH]; cbn [app find].
  - destruct (matches w data); reflexivity.
  - destruct (matches w r); [reflexivity|exact IH].
Qed.

Lemma update_untouched (w : Where) (set : QRToken -> QRToken) (rows : list QRToken) :
  findOne w rows = None -> update w set rows = rows.
Proof.
  intros Hnone. unfold update. rewrite <- (map_id rows) at 2.
  apply map_ext_in. intros r Hin.
  rewrite (findOne_none_matches _ _ Hnone r Hin). reflexivity.
Qed.

Lemma update_create (w : Where) (set : QRToken -> QRToken) (data : QRToken)
  (rows : list QRToken) :
  update w set (create data rows)
  = create (if matches w data then set data else data) (update w set rows).
Proof. unfold update, create. rewrite map_app. reflexivity. Qed.

Lemma run_generateToken (parsedConfig : QRAuthConfig) (sys : SessionSystem)
  (db : Database) (tokenId token baseURL : string) (now : Z) :
  run sys (generateToken parsedConfig tokenId token now baseURL) db
  = (generate_ok tokenId
       {| qr_tokenId := tokenId; qr_token := token; qr_serverUrl := baseURL |}
       (now + tokenExpirationMinutes parsedConfig * 60 * 1000),
     with_rows db (create (generated_row parsedConfig tokenId token now)
                     (qrToken_table db))).
Proof. reflexivity. Qed.

(** X9: the whole exchange goes through. Starting from a table in which the
    drawn id and the drawn session-creation token are not in use, with the
    scanning user in the user table and the session system working: the
    token is generated, the scan with its secret before [expiresAt] succeeds,
    the next status poll answers [completed] with the session-creation token
    and the bound user, a claim with that token before it expires creates the
    session for that user, and a second claim with the same token is answered
    "Invalid session creation token". *)
Theorem exchange_goes_through (parsedConfig : QRAuthConfig) (sys : SessionSystem)
  (db : Database) (tid tok baseURL fresh : string) (usr stored : User)
  (s : Session)
  (now_generate now_check now_mint now_stamp now_first now_second now_claim now_again : Z) :
  tid <> EmptyString -> tok <> EmptyString -> fresh <> EmptyString ->
  user_id usr <> EmptyString ->
  findOne (by_id tid) (qrToken_table db) = None ->
  no_row_holds fresh (qrToken_table db) = true ->
  findUser (Value (user_id usr)) (user_table db) = Some stored ->
  session_ready sys (user_id usr) stored = Some s ->
  let expires := now_generate + tokenExpirationMinutes parsedConfig * 60 * 1000 in
  now_check <= expires -> now_first <= expires ->
  now_second < now_mint + 5 * 60 * 1000 ->
  now_claim < now_mint + 5 * 60 * 1000 ->
  fst (serve parsedConfig
         [ (sys, POST_generate tid tok now_generate baseURL);
           (sys, POST_verify (scan tid tok) (as_caller usr) fresh
                   now_check now_mint now_stamp);
           (sys, GET_status (Value tid) now_first now_second);
           (sys, POST_claim (claim_of fresh) now_claim);
           (sys, POST_claim (claim_of fresh) now_again) ] db)
  = [ generate_ok tid
        {| qr_tokenId := tid; qr_token := tok; qr_serverUrl := baseURL |}
        expires;
      verify_ok (user_id usr) usr fresh (now_mint + 5 * 60 * 1000);
      status_ok completed (Value (user_id usr)) (Some stored) (Some fresh)
        (Some now_stamp) expires;
      claim_ok (user_id usr) stored (session_token s) (session_expiresAt s);
      json_error "Invalid session creation token" 404 ].
Proof.
  intros Htid Htok Hfresh Huid Hnew Hunheld Hstored Hready expires
         Hcheck Hfirst Hsecond Hclaim.
  pose (row0 := generated_row parsedConfig tid tok now_generate).
  pose (row1 := verify_update (user_id usr) now_stamp fresh
                  (now_mint + 5 * 60 * 1000) row0).
  assert (Hm0 : matches (by_id tid) row0 = true).
  { unfold matches. cbn. apply String.eqb_refl. }
  assert (Hrows2 : update (by_id tid)
                     (verify_update (user_id usr) now_stamp fresh
                        (now_mint + 5 * 60 * 1000))
                     (create row0 (qrToken_table db))
                   = create row1 (qrToken_table db)).
  { rewrite update_create, Hm0, (update_untouched _ _ _ Hnew). reflexivity. }
  assert (Hby_id : findOne (by_id tid) (create row1 (qrToken_table db)) = Some row1).
  { rewrite findOne_create, Hnew. unfold matches. cbn. rewrite String.eqb_refl.
    reflexivity. }
  assert (Hby_sct : findOne (by_sessionCreationToken fresh)
                      (create row1 (qrToken_table db)) = Some row1).
  { rewrite findOne_create, (no_row_holds_findOne _ _ Hunheld).
    unfold matches. cbn. rewrite String.eqb_refl. reflexivity. }
  assert (Hc : (expires <? now_check) = false) by (apply Z.ltb_ge; lia).
  assert (Hf : (expires <? now_first) = false) by (apply Z.ltb_ge; lia).
  assert (Hs : (now_second <? now_mint + 5 * 60 * 1000) = true) by (apply Z.ltb_lt; lia).
  assert (Hcl : (now_mint + 5 * 60 * 1000 <=? now_claim) = false) by (apply Z.leb_gt; lia).
  cbn [serve endpoint].
  (* generate *)
  rewrite run_generateToken. fold row0. fold expires.
  (* verify *)
  rewrite (run_verifyToken sys _ tid tok usr) by assumption.
  cbn [with_rows qrToken_table user_table].
  rewrite findOne_create, Hnew, Hm0.
  change (token row0) with tok. rewrite String.eqb_refl. cbn [negb].
  change (expiresAt row0) with expires. rewrite Hc.
  change (isUsed row0) with false. cbv iota.
  change (now_mint + 300000) with (now_mint + 5 * 60 * 1000).
  rewrite Hrows2.
  (* poll *)
  rewrite (run_pollStatus sys _ (Value tid)) by (apply truthy_Value_true, Htid).
  cbn [with_rows qrToken_table user_table text].
  rewrite Hby_id. cbv zeta.
  change (expiresAt row1) with expires. rewrite Hf.
  change (isUsed row1) with true. cbv iota.
  change (userId row1) with (Value (user_id usr)). rewrite Hstored.
  change (sessionCreationToken row1) with (Value fresh).
  rewrite (truthy_Value_true fresh Hfresh).
  change (sessionCreationTokenExpiresAt row1) with (Value (now_mint + 5 * 60 * 1000)).
  cbn [new_Date date_gt andb]. rewrite Hs.
  change (verifiedAt row1) with (Value now_stamp). cbn [iso_or_null text].
  (* first claim *)
  rewrite (run_claimSession sys _ (claim_of fresh) now_claim)
    by (apply truthy_Value_true, Hfresh).
  cbn [claim_of body_sessionCreationToken text with_rows qrToken_table user_table].
  rewrite Hby_sct.
  change (isUsed row1) with true.
  change (userId row1) with (Value (user_id usr)).
  rewrite (truthy_Value_true _ Huid). cbn [negb orb].
  change (sessionCreationTokenExpiresAt row1) with (Value (now_mint + 5 * 60 * 1000)).
  cbn [new_Date date_le]. rewrite Hcl, Hstored. cbn [text].
  unfold session_ready in Hready.
  destruct (createSession sys (user_id usr)) as [s0| |m0]; try discriminate.
  destruct (setSessionCookie sys s0 stored); [discriminate|].
  injection Hready as ->.
  (* second claim *)
  rewrite (run_claimSession sys _ (claim_of fresh) now_again)
    by (apply truthy_Value_true, Hfresh).
  cbn [claim_of body_sessionCreationToken text with_rows qrToken_table user_table].
  rewrite findOne_after_claim.
  reflexivity.
Qed.

Lemma exchange_goes_through_witness :
  fst (serve default_config
         [ (willing, POST_generate "qr-1" "secret-1" 0 "https://example.com");
           (willing, POST_verify (scan "qr-1" "secret-1") (as_caller alice) "sct-1"
                       1000 1000 1000);
           (willing, GET_status (Value "qr-1") 2000 2000);
           (willing, POST_claim (claim_of "sct-1") 3000);
           (willing, POST_claim (claim_of "sct-1") 4000) ]
         (database_of []))
  = [ generate_ok "qr-1"
        {| qr_tokenId := "qr-1"; qr_token := "secret-1";
           qr_serverUrl := "https://example.com" |} 300000;
      verify_ok "user-1" alice "sct-1" 301000;
      status_ok completed (Value "user-1") (Some alice) (Some "sct-1") (Some 1000) 300000;
      claim_ok "user-1" alice "session-for-user-1" 604800000;
      json_error "Invalid session creation token" 404 ].
Proof.
  apply (exchange_goes_through default_config willing (database_of [])
           "qr-1" "secret-1" "https://example.com" "sct-1" alice alice
           {| session_token := "session-for-user-1"; session_expiresAt := 604800000 |}
           0 1000 1000 1000 2000 2000 3000 4000);
    try discriminate; try reflexivity; cbn; lia.
Defined.

(** Status polls of a pending row before its [expiresAt] answer [pending] and
    change nothing. *)
Lemma serve_polls_of_pending_row (parsedConfig : QRAuthConfig) (sys : SessionSystem)
  (db : Database) (tid : string) (r : QRToken) (polls : list (Z * Z)) :
  tid <> EmptyString ->
  findOne (by_id tid) (qrToken_table db) = Some r ->
  isUsed r = false ->
  Forall (fun clock => fst clock <= expiresAt r) polls ->
  serve parsedConfig
    (map (fun clock => (sys, GET_status (Value tid) (fst clock) (snd clock))) polls) db
  = (map (fun _ => status_ok pending (userId r) None None
                     (iso_or_null (verifiedAt r)) (expiresAt r)) polls,
     db).
Proof.
  intros Htid Hfind Hpending Hall.
  induction Hall as [|clock polls Hlive _ IH]; [reflexivity|].
  cbn [map serve endpoint].
  rewrite (run_pollStatus sys db (Value tid)) by (apply truthy_Value_true, Htid).
  cbn [text]. rewrite Hfind. cbv zeta.
  apply Z.ltb_ge in Hlive. rewrite Hlive, Hpending.
  rewrite IH. reflexivity.
Qed.

(** X10: a freshly generated token reads as pending until it is scanned.
    After [generateToken] with an id no row has yet, every status poll of
    that id made no later than the token's [expiresAt] answers [pending],
    with no user and no session-creation token, however many polls there
    are, and the polls leave the generated row as it is. *)
Theorem fresh_token_polls_pending (parsedConfig : QRAuthConfig) (sys : SessionSystem)
  (db : Database) (tid tok baseURL : string) (now : Z) (polls : list (Z * Z)) :
  tid <> EmptyString ->
  findOne (by_id tid) (qrToken_table db) = None ->
  let expires := now + tokenExpirationMinutes parsedConfig * 60 * 1000 in
  Forall (fun clock => fst clock <= expires) polls ->
  serve parsedConfig
    ((sys, POST_generate tid tok now baseURL)
       :: map (fun clock => (sys, GET_status (Value tid) (fst clock) (snd clock))) polls)
    db
  = (generate_ok tid
       {| qr_tokenId := tid; qr_token := tok; qr_serverUrl := baseURL |} expires
       :: map (fun _ => status_ok pending Undefined None None None expires) polls,
     with_rows db (create (generated_row parsedConfig tid tok now) (qrToken_table db))).
Proof.
  intros Htid Hnew expires Hall.
  cbn [serve endpoint]. rewrite run_generateToken.
  rewrite (serve_polls_of_pending_row parsedConfig sys _ tid
             (generated_row parsedConfig tid tok now) polls).
  - reflexivity.
  - exact Htid.
  - cbn [with_rows qrToken_table]. rewrite findOne_create, Hnew.
    unfold matches. cbn. rewrite String.eqb_refl. reflexivity.
  - reflexivity.
  - exact Hall.
Qed.

Lemma fresh_token_polls_pending_witness :
  fst (serve default_config
         [ (willing, POST_generate "qr-1" "secret-1" 0 "https://example.com");
           (willing, GET_status (Value "qr-1") 2000 2000);
           (willing, GET_status (Value "qr-1") 300000 300000) ]
         (database_of []))
  = [ generate_ok "qr-1"
        {| qr_tokenId := "qr-1"; qr_token := "secret-1";
           qr_serverUrl := "https://example.com" |} 300000;
      status_ok pending Undefined None None None 300000;
      status_ok pending Undefined None None None 300000 ].
Proof.
  refine (f_equal fst
            (fresh_token_polls_pending default_config willing (database_of [])
               "qr-1" "secret-1" "https://example.com" 0
               [(2000, 2000); (300000, 300000)] _ _ _)).
  - discriminate.
  - reflexivity.
  - repeat constructor; cbn; lia.
Defined.

(** ** The two expiry times *)

Lemma findOne_after_delete (w w' : Where) (rows : list QRToken) :
  (forall q, In q rows -> matches w q = true -> matches w' q = true) ->
  findOne w (delete w' rows) = None.
Proof.
  intros Hcover. unfold findOne.
  destruct (find _ _) as [q|] eqn:Hfind; [|reflexivity].
  apply find_some in Hfind. destruct Hfind as [Hin Hm].
  unfold delete in Hin. apply filter_In in Hin. destruct Hin as [Hin Hkept].
  rewrite (Hcover q Hin Hm) in Hkept. discriminate.
Qed.

(** X11: [claimSession] does not look at [expiresAt], but [pollStatus] does
    before anything else. A verified row whose session-creation token is
    still valid can be claimed after its [expiresAt] has passed; if a status
    poll of the row arrives first, the poll answers "Token expired" and
    deletes the row, and the same claim is then answered "Invalid session
    creation token". *)
Theorem late_poll_destroys_open_handoff (parsedConfig : QRAuthConfig)
  (sys : SessionSystem) (db : Database) (tid t : string) (r : QRToken)
  (usr : User) (s : Session) (e now_first now_second now : Z) :
  tid <> EmptyString -> t <> EmptyString ->
  findOne (by_id tid) (qrToken_table db) = Some r ->
  findOne (by_sessionCreationToken t) (qrToken_table db) = Some r ->
  (forall q, In q (qrToken_table db) -> sessionCreationToken q = Value t -> id q = tid) ->
  isUsed r = true ->
  truthy (userId r) = true ->
  sessionCreationTokenExpiresAt r = Value e ->
  findUser (userId r) (user_table db) = Some usr ->
  session_ready sys (text (userId r)) usr = Some s ->
  expiresAt r < now_first ->
  now < e ->
  fst (run sys (claimSession (claim_of t) now) db)
  = claim_ok (text (userId r)) usr (session_token s) (session_expiresAt s)
  /\ fst (serve parsedConfig
            [ (sys, GET_status (Value tid) now_first now_second);
              (sys, POST_claim (claim_of t) now) ] db)
     = [ json_error "Token expired" 410;
         json_error "Invalid session creation token" 404 ].
Proof.
  intros Htid Ht Hby_id Hby_sct Hsame Hused Huid Hexp Husr Hready Hdead Hnow.
  split.
  - rewrite (run_claimSession sys db (claim_of t) now)
      by (apply truthy_Value_true, Ht).
    cbn [claim_of body_sessionCreationToken text].
    rewrite Hby_sct, Hused, Huid, Hexp. cbn [negb orb new_Date date_le].
    apply Z.leb_gt in Hnow. rewrite Hnow, Husr.
    unfold session_ready in Hready.
    destruct (createSession sys _) as [s0| |m0]; try discriminate.
    destruct (setSessionCookie sys s0 usr); [discriminate|].
    injection Hready as ->. reflexivity.
  - cbn [serve endpoint].
    rewrite (run_pollStatus sys db (Value tid)) by (apply truthy_Value_true, Htid).
    cbn [text]. rewrite Hby_id. cbv zeta.
    apply Z.ltb_lt in Hdead. rewrite Hdead.
    rewrite (run_claimSession sys _ (claim_of t) now)
      by (apply truthy_Value_true, Ht).
    cbn [claim_of body_sessionCreationToken text with_rows qrToken_table].
    rewrite findOne_after_delete; [reflexivity|].
    intros q Hin Hm. apply matches_by_sessionCreationToken in Hm.
    unfold matches. cbn. rewrite (Hsame q Hin Hm). apply String.eqb_refl.
Qed.

Lemma late_poll_destroys_open_handoff_witness :
  fst (run willing (claimSession (claim_of "sct-1") 300500) (database_of [verified_row]))
  = claim_ok "user-1" alice "session-for-user-1" 604800000
  /\ fst (serve default_config
            [ (willing, GET_status (Value "qr-1") 300400 300400);
              (willing, POST_claim (claim_of "sct-1") 300500) ]
            (database_of [verified_row]))
     = [ json_error "Token expired" 410;
         json_error "Invalid session creation token" 404 ].
Proof.
  apply (late_poll_destroys_open_handoff default_config willing
           (database_of [verified_row]) "qr-1" "sct-1" verified_row alice
           {| session_token := "session-for-user-1"; session_expiresAt := 604800000 |}
           301000 300400 300400 300500);
    try discriminate; try reflexivity; try (cbn; lia).
  intros q [<-|[]] _. reflexivity.
Defined.

(** ** Claims that overlap *)

(** X12: two claims of the same session-creation token that overlap are both
    granted. When both handlers have looked the row up before either has
    cleared the token, each of them finds the token valid, has a session
    created and answers with a success. *)
Theorem overlapping_claims_both_succeed (sys : SessionSystem) (db : Database)
  (body : ClaimBody) (now1 now2 : Z) (r : QRToken) (usr : User) (s : Session) (e : Z) :
  truthy (body_sessionCreationToken body) = true ->
  findOne (by_sessionCreationToken (text (body_sessionCreationToken body)))
    (qrToken_table db) = Some r ->
  isUsed r = true ->
  truthy (userId r) = true ->
  sessionCreationTokenExpiresAt r = Value e ->
  findUser (userId r) (user_table db) = Some usr ->
  session_ready sys (text (userId r)) usr = Some s ->
  now1 < e -> now2 < e ->
  fst (interleave sys [0; 1; 0; 1; 0; 1; 0; 1; 0; 1]%nat
         [claimSession body now1; claimSession body now2] db)
  = [ Return (claim_ok (text (userId r)) usr (session_token s) (session_expiresAt s));
      Return (claim_ok (text (userId r)) usr (session_token s) (session_expiresAt s)) ].
Proof.
  intros Htruthy Hfind Hused Huid Hexp Husr Hready Hnow1 Hnow2.
  apply Z.leb_gt in Hnow1. apply Z.leb_gt in Hnow2.
  unfold session_ready in Hready.
  destruct (createSession sys (text (userId r))) as [s0| |m0] eqn:Hcreate;
    try discriminate.
  destruct (setSessionCookie sys s0 usr) eqn:Hcookie; [discriminate|].
  injection Hready as ->.
  unfold claimSession. rewrite Htruthy. cbn [negb].
  cbn [interleave nth_error set_nth resume].
  rewrite Hfind, Hused, Huid, Hexp. cbn [negb orb new_Date date_le].
  rewrite Hnow1, Hnow2.
  cbn [interleave nth_error set_nth resume user_table].
  rewrite Husr.
  cbn [interleave nth_error set_nth resume].
  rewrite Hcreate.
  cbn [interleave nth_error set_nth resume].
  rewrite Hcookie.
  cbn [interleave nth_error set_nth resume fst].
  reflexivity.
Qed.

Lemma overlapping_claims_both_succeed_witness :
  fst (interleave willing [0; 1; 0; 1; 0; 1; 0; 1; 0; 1]%nat
         [claimSession (claim_of "sct-1") 2000; claimSession (claim_of "sct-1") 2001]
         (database_of [verified_row]))
  = [ Return (claim_ok "user-1" alice "session-for-user-1" 604800000);
      Return (claim_ok "user-1" alice "session-for-user-1" 604800000) ].
Proof.
  apply (overlapping_claims_both_succeed willing (database_of [verified_row])
           (claim_of "sct-1") 2000 2001 verified_row alice
           {| session_token := "session-for-user-1"; session_expiresAt := 604800000 |}
           301000 eq_refl eq_refl eq_refl eq_refl eq_refl eq_refl eq_refl);
    lia.
Defined.

(** ** Configuration *)

Lemma number_min_max_default_bounds (lo hi dflt : Z) (v : option Z) (x : Z) :
  lo <= dflt <= hi ->
  number_min_max_default lo hi dflt v = Some x ->
  lo <= x <= hi /\ (v = None -> x = dflt) /\ (forall y, v = Some y -> x = y).
Proof.
  intros Hdflt. unfold number_min_max_default. destruct v as [y|].
  - destruct (Z.leb_spec lo y); destruct (Z.leb_spec y hi); cbn; try discriminate.
    intros [= <-]. split; [lia|]. split; [discriminate|]. intros ? [= <-]. reflexivity.
  - intros [= <-]. split; [lia|]. split; [reflexivity|discriminate].
Qed.

(** X13: every token lives between one minute and one hour. Under any
    configuration the schema accepts, the row [generateToken] stores expires
    between 60000 and 3600000 milliseconds after its creation time (300000
    when [tokenExpirationMinutes] is not configured), and the response
    announces that same expiry; a configured [tokenExpirationMinutes] below 1
    or above 60 is rejected by the schema. *)
Theorem configured_lifetime_bounds (config : option QRAuthConfigInput)
  (parsedConfig : QRAuthConfig) (endpoints : Endpoints) (sys : SessionSystem)
  (db : Database) (tid tok baseURL : string) (now : Z) :
  qrAuth_config config = Some (parsedConfig, endpoints) ->
  let outcome := run sys (generateToken parsedConfig tid tok now baseURL) db in
  let row := generated_row parsedConfig tid tok now in
  In row (qrToken_table (snd outcome))
  /\ 60000 <= expiresAt row - createdAt row <= 3600000
  /\ (configured_minutes config = None -> expiresAt row - createdAt row = 300000)
  /\ (forall m, configured_minutes config = Some m ->
        1 <= m <= 60 /\ expiresAt row - createdAt row = m * 60000)
  /\ fst outcome
     = generate_ok tid
         {| qr_tokenId := tid; qr_token := tok; qr_serverUrl := baseURL |}
         (expiresAt row).
Proof.
  intros Hparse outcome row. subst outcome row.
  rewrite run_generateToken. cbn [fst snd with_rows qrToken_table].
  unfold qrAuth_config, qrAuthConfigSchema_parse in Hparse.
  destruct (number_min_max_default 1 60 5 _) as [minutes|] eqn:Hminutes;
    [|discriminate].
  destruct (number_min_max_default 128 512 256 _) as [size|]; [|discriminate].
  injection Hparse as <- _.
  apply number_min_max_default_bounds in Hminutes; [|lia].
  destruct Hminutes as [Hbounds [Hdefault Hgiven]].
  cbn [generated_row expiresAt createdAt tokenExpirationMinutes].
  split; [unfold create; apply in_or_app; right; left; reflexivity|].
  split; [lia|]. split; [|split; [|reflexivity]].
  - intros Hnone. rewrite Hdefault; [lia|].
    unfold configured_minutes in Hnone. destruct config; exact Hnone.
  - intros m Hsome.
    assert (minutes = m).
    { apply Hgiven. unfold configured_minutes in Hsome.
      destruct config; [exact Hsome|discriminate]. }
    subst m. split; lia.
Qed.

Lemma configured_lifetime_bounds_witness :
  60000
  <= expiresAt (generated_row {| tokenExpirationMinutes := 60; qrCodeSize := 256 |}
                  "qr-2" "secret-2" 0)
     - createdAt (generated_row {| tokenExpirationMinutes := 60; qrCodeSize := 256 |}
                    "qr-2" "secret-2" 0)
  <= 3600000.
Proof.
  apply (configured_lifetime_bounds
           (Some {| input_tokenExpirationMinutes := Some 60;
                    input_qrCodeSize := None;
                    input_endpoints := None |})
           {| tokenExpirationMinutes := 60; qrCodeSize := 256 |}
           {| path_generateToken := "/qr/generate";
              path_verifyToken := "/qr/verify";
              path_pollStatus := "/qr/status";
              path_claimSession := "/qr/claim-session" |}
           willing (database_of []) "qr-2" "secret-2" "https://example.com" 0).
  reflexivity.
Defined.

Lemma rate_limited_prefix (path : string) :
  rate_limited path = prefix "/qr/" path.
Proof. unfold rate_limited, rateLimit. cbn [existsb pathMatcher]. apply orb_false_r. Qed.

(** X14: the rate limit follows the path, not the endpoint. Under any
    configuration the schema accepts, each of the four endpoints that keeps
    its default path is covered by the plugin's rate limit rule, and an
    endpoint configured with a path of its own is covered exactly when that
    path starts with [/qr/]. *)
Theorem rate_limit_coverage (config : option QRAuthConfigInput)
  (parsedConfig : QRAuthConfig) (endpoints : Endpoints) :
  qrAuth_config config = Some (parsedConfig, endpoints) ->
  covered_unless_moved (configured config input_generateToken)
    (path_generateToken endpoints)
  /\ covered_unless_moved (configured config input_verifyToken)
       (path_verifyToken endpoints)
  /\ covered_unless_moved (configured config input_pollStatus)
       (path_pollStatus endpoints)
  /\ covered_unless_moved (configured config input_claimSession)
       (path_claimSession endpoints).
Proof.
  intros Hparse. unfold qrAuth_config, qrAuthConfigSchema_parse in Hparse.
  destruct (number_min_max_default 1 60 5 _); [|discriminate].
  destruct (number_min_max_default 128 512 256 _); [|discriminate].
  injection Hparse as _ <-.
  unfold covered_unless_moved, configured.
  cbn [path_generateToken path_verifyToken path_pollStatus path_claimSession].
  destruct config as [[minutes size [[g v p c]|]]|];
    cbn [input_endpoints input_generateToken input_verifyToken input_pollStatus
         input_claimSession no_endpoints empty_input string_default].
  - repeat split;
      match goal with
      | |- match ?x with _ => _ end => destruct x; cbn [string_default]
      end;
      try reflexivity; split; try reflexivity; rewrite rate_limited_prefix; tauto.
  - repeat split; reflexivity.
  - repeat split; reflexivity.
Qed.

Lemma rate_limit_coverage_witness :
  rate_limited "/qr/generate" = true
  /\ (rate_limited "/auth/scan" = true <-> prefix "/qr/" "/auth/scan" = true).
Proof.
  destruct (rate_limit_coverage
              (Some {| input_tokenExpirationMinutes := None;
                       input_qrCodeSize := None;
                       input_endpoints :=
                         Some {| input_generateToken := None;
                                 input_verifyToken := Some "/auth/scan";
                                 input_pollStatus := None;
                                 input_claimSession := None |} |})
              default_config
              {| path_generateToken := "/qr/generate";
                 path_verifyToken := "/auth/scan";
                 path_pollStatus := "/qr/status";
                 path_claimSession := "/qr/claim-session" |} eq_refl)
    as [Hgenerate [[_ Hverify] _]].
  split; [exact Hgenerate|exact Hverify].
Defined.

(** * Properties of the web client *)

Lemma js_truthy_string (s : string) :
  js_truthy (Some (js_string s)) = true <-> s <> EmptyString.
Proof.
  cbn. destruct (String.eqb_spec s EmptyString); cbn; split; congruence.
Qed.

(** X15: [parseQRCode] hands back the scanned object exactly when the text
    parsed to a value whose [tokenId], [token] and [serverUrl] are all
    truthy, and then without an error; in every other case (text that does
    not parse, [null], a missing or empty field) it hands back no data and an
    error message. So exactly one of [data] and [error] is null. *)
Theorem parseQRCode_accepts (TypeError_message : string) (qrCodeData : ParseOutcome) :
  let result := parseQRCode TypeError_message qrCodeData in
  (forall v, data result = Some v <->
             qrCodeData = Parsed v
             /\ exists tokenId token serverUrl,
                  read_property v "tokenId" = Some tokenId
                  /\ read_property v "token" = Some token
                  /\ read_property v "serverUrl" = Some serverUrl
                  /\ js_truthy tokenId = true
                  /\ js_truthy token = true
                  /\ js_truthy serverUrl = true)
  /\ (data result <> None -> error result = None)
  /\ (data result = None -> exists message, error result = Some (js_string message)).
Proof.
  intros result. subst result. unfold parseQRCode.
  assert (Hreject : forall message : string,
            (forall v, qrCodeData = Parsed v ->
               forall tokenId token serverUrl,
                 read_property v "tokenId" = Some tokenId ->
                 read_property v "token" = Some token ->
                 read_property v "serverUrl" = Some serverUrl ->
                 js_truthy tokenId = true -> js_truthy token = true ->
                 js_truthy serverUrl = true -> False) ->
            let result := {| data := None; error := Some (js_string message) |} in
            (forall v, data result = Some v <->
                       qrCodeData = Parsed v
                       /\ exists tokenId token serverUrl,
                            read_property v "tokenId" = Some tokenId
                            /\ read_property v "token" = Some token
                            /\ read_property v "serverUrl" = Some serverUrl
                            /\ js_truthy tokenId = true
                            /\ js_truthy token = true
                            /\ js_truthy serverUrl = true)
            /\ (data result <> None -> error result = None)
            /\ (data result = None ->
                  exists m, error result = Some (js_string m))).
  { intros message Hno result. subst result. cbn [data error]. split; [|split].
    - intros v. split; [discriminate|].
      intros [Heq [a [b [c [Ha [Hb [Hc [Ta [Tb Tc]]]]]]]]].
      exfalso. exact (Hno v Heq a b c Ha Hb Hc Ta Tb Tc).
    - congruence.
    - intros _. exists message. reflexivity. }
  destruct qrCodeData as [parsed|message].
  2:{ apply Hreject. intros v Heq. discriminate. }
  destruct (read_property parsed "tokenId") as [tokenId|] eqn:H1.
  2:{ apply Hreject. intros v [= <-]. congruence. }
  destruct (read_property parsed "token") as [token|] eqn:H2.
  2:{ apply Hreject. intros v [= <-]. congruence. }
  destruct (read_property parsed "serverUrl") as [serverUrl|] eqn:H3.
  2:{ apply Hreject. intros v [= <-]. congruence. }
  destruct (js_truthy tokenId) eqn:T1.
  2:{ apply Hreject. intros v [= <-]. congruence. }
  destruct (js_truthy token) eqn:T2.
  2:{ apply Hreject. intros v [= <-]. congruence. }
  destruct (js_truthy serverUrl) eqn:T3.
  2:{ apply Hreject. intros v [= <-]. congruence. }
  cbn [negb orb data error]. split; [|split].
  - intros v. split.
    + intros [= <-]. split; [reflexivity|].
      exists tokenId, token, serverUrl. repeat split; assumption.
    + intros [[= <-] _]. reflexivity.
  - intros _. reflexivity.
  - discriminate.
Qed.

Lemma parseQRCode_accepts_witness :
  error (parseQRCode "Cannot read properties of null"
           (Parsed (qrDataObject
                      {| qr_tokenId := "qr-1"; qr_token := "secret-1";
                         qr_serverUrl := "https://example.com" |})))
  = None.
Proof.
  apply (parseQRCode_accepts "Cannot read properties of null"
           (Parsed (qrDataObject
                      {| qr_tokenId := "qr-1"; qr_token := "secret-1";
                         qr_serverUrl := "https://example.com" |}))).
  discriminate.
Defined.

(** X16: the QR code the server issues is the one its client scans. For a
    token generated with a non-empty id, secret and base URL, the web
    client's [parseQRCode] accepts the encoded object and hands back the very
    [tokenId] and [token] the server stored in the row, and
    [handleQRCodeScan] posts that object to the verify endpoint. If the
    server's base URL is empty, the client rejects the code as "Invalid QR
    code format" without calling the server. *)
Theorem generated_code_scans (parsedConfig : QRAuthConfig) (sys : SessionSystem)
  (db : Database) (tid tok baseURL : string) (now : Z)
  (TypeError_message : string) (fetch : Fetch) (verifyToken_path : string) :
  tid <> EmptyString -> tok <> EmptyString ->
  let outcome := run sys (generateToken parsedConfig tid tok now baseURL) db in
  exists payload row,
    payload_of (fst outcome) = Some payload
    /\ In row (qrToken_table (snd outcome))
    /\ read_property (qrDataObject payload) "tokenId" = Some (Some (js_string (id row)))
    /\ read_property (qrDataObject payload) "token" = Some (Some (js_string (token row)))
    /\ (baseURL <> EmptyString ->
          parseQRCode TypeError_message (Parsed (qrDataObject payload))
          = {| data := Some (qrDataObject payload); error := None |}
          /\ handleQRCodeScan TypeError_message fetch verifyToken_path
               (Parsed (qrDataObject payload))
             = verifyQRScan fetch verifyToken_path (Some (qrDataObject payload)))
    /\ (baseURL = EmptyString ->
          forall fetch',
            handleQRCodeScan TypeError_message fetch' verifyToken_path
              (Parsed (qrDataObject payload))
            = {| data := None; error := Some (js_string "Invalid QR code format") |}).
Proof.
  intros Htid Htok outcome. subst outcome. rewrite run_generateToken.
  cbn [fst snd payload_of with_rows qrToken_table].
  eexists. exists (generated_row parsedConfig tid tok now).
  split; [reflexivity|].
  split; [unfold create; apply in_or_app; right; left; reflexivity|].
  split; [reflexivity|]. split; [reflexivity|].
  assert (Hparse : parseQRCode TypeError_message
                     (Parsed (qrDataObject
                                {| qr_tokenId := tid; qr_token := tok;
                                   qr_serverUrl := baseURL |}))
                   = if negb (String.eqb baseURL EmptyString)
                     then {| data := Some (qrDataObject
                                             {| qr_tokenId := tid; qr_token := tok;
                                                qr_serverUrl := baseURL |});
                             error := None |}
                     else {| data := None;
                             error := Some (js_string "Invalid QR code format") |}).
  { unfold parseQRCode, qrDataObject, read_property.
    cbn [find fst snd option_map String.eqb Ascii.eqb Bool.eqb qr_tokenId qr_token
         qr_serverUrl].
    apply js_truthy_string in Htid. apply js_truthy_string in Htok.
    rewrite Htid, Htok. cbn [negb orb js_truthy].
    destruct (String.eqb baseURL EmptyString); reflexivity. }
  split.
  - intros Hurl. apply String.eqb_neq in Hurl.
    unfold handleQRCodeScan. rewrite Hparse, Hurl. cbn [negb].
    split; reflexivity.
  - intros -> fetch'. unfold handleQRCodeScan. rewrite Hparse. reflexivity.
Qed.

Lemma generated_code_scans_witness :
  handleQRCodeScan "Cannot read properties of null"
    (answering (js_object [("userId", js_string "user-1")])) "/qr/verify"
    (Parsed (qrDataObject
               {| qr_tokenId := "qr-1"; qr_token := "secret-1";
                  qr_serverUrl := "https://example.com" |}))
  = {| data := Some (js_object [("userId", js_string "user-1")]); error := None |}.
Proof.
  destruct (generated_code_scans default_config willing (database_of [])
              "qr-1" "secret-1" "https://example.com" 0
              "Cannot read properties of null"
              (answering (js_object [("userId", js_string "user-1")])) "/qr/verify")
    as [payload [row [Hpayload [_ [_ [_ [Haccepted _]]]]]]].
  - discriminate.
  - discriminate.
  - injection Hpayload as <-.
    destruct Haccepted as [_ Hscan]; [discriminate|].
    rewrite Hscan. reflexivity.
Defined.

(** * Polling is read-only *)

(** X17: a status poll never writes a row. After [pollStatus] the database
    is the one before, unless the answer is "Token expired", in which case
    exactly the rows with the polled id are gone and the rest is as before. *)
Theorem pollStatus_read_only (sys : SessionSystem) (db : Database)
  (tokenId : optional string) (now_first now_second : Z) :
  let outcome := run sys (pollStatus tokenId now_first now_second) db in
  snd outcome = db
  \/ (fst outcome = json_error "Token expired" 410
      /\ qrToken_table (snd outcome) = delete (by_id (text tokenId)) (qrToken_table db)
      /\ user_table (snd outcome) = user_table db
      /\ forall r, In r (qrToken_table db) -> id r <> text tokenId ->
                   In r (qrToken_table (snd outcome))).
Proof.
  destruct (truthy tokenId) eqn:Htruthy.
  2:{ rewrite pollStatus_missing_id by assumption. left. reflexivity. }
  rewrite (run_pollStatus sys db tokenId) by assumption.
  destruct (findOne _ _) as [q|]; [|left; reflexivity]. cbv zeta.
  destruct (expiresAt q <? now_first).
  - right. cbn [fst snd with_rows qrToken_table user_table].
    repeat split. intros r Hin Hne. unfold delete. apply filter_In.
    split; [exact Hin|]. unfold matches. cbn.
    apply String.eqb_neq in Hne. rewrite Hne. reflexivity.
  - destruct (isUsed q); [|left; reflexivity].
    destruct (findUser _ _); [|left; reflexivity].
    destruct (truthy (sessionCreationToken q) && _); left; reflexivity.
Qed.

Lemma pollStatus_read_only_witness :
  snd (run willing (pollStatus (Value "qr-1") 1000 1000) (database_of [pending_row]))
  = database_of [pending_row].
Proof.
  destruct (pollStatus_read_only willing (database_of [pending_row])
              (Value "qr-1") 1000 1000) as [Hsame|[Hexpired _]].
  - exact Hsame.
  - discriminate Hexpired.
Defined.
